(** * Farcaster Mini — Contract Creator: the wallet session controller

    A shallow embedding of [src/App.jsx]: the two network profiles, the
    session state held in React state variables, and the event handlers
    ([ensureNetwork], [connectWallet], [fillTestBytecode], [deployContract],
    the Disconnect and Reset buttons) as programs over the effects the
    handlers perform: reads of [window.ethereum], calls of the state
    setters, and awaited requests to the wallet provider and to the ethers
    signer. A handler is run against a [world] that answers every request,
    which yields the final session state, the ordered trace of effects and
    the way the handler completed. *)

From Stdlib Require Import ZArith NArith List String Ascii Bool Lia.
From ExtLib Require Import Structures.Monad Structures.MonadExc.
Import ListNotations.
Import MonadNotation.
Local Open Scope monad_scope.
Local Open Scope list_scope.

(* ===================================================================== *)
(** ** JavaScript strings *)
(* ===================================================================== *)

(** A JavaScript string is a sequence of UTF-16 code units; [length],
    [trim], [startsWith] and [+] all work on code units. *)
Definition jsstring := list N.

(** Code units of a code point: one unit in the basic plane, a surrogate
    pair above it. *)
Definition utf16_units (cp : N) : jsstring :=
  if (cp <? 65536)%N then [cp]
  else [(55296 + (cp - 65536) / 1024)%N; (56320 + (cp - 65536) mod 1024)%N].

(** Reads the UTF-8 bytes of a source literal: [need] continuation bytes
    are still expected for the code point accumulated in [acc]. *)
Fixpoint utf8_decode (s : string) (need : nat) (acc : N) : jsstring :=
  match s with
  | EmptyString => []
  | String c rest =>
      let b := N_of_ascii c in
      match need with
      | O =>
          if (b <? 128)%N then b :: utf8_decode rest 0 0%N
          else if (b <? 224)%N then utf8_decode rest 1 (b - 192)%N
          else if (b <? 240)%N then utf8_decode rest 2 (b - 224)%N
          else utf8_decode rest 3 (b - 240)%N
      | S O => utf16_units (acc * 64 + (b - 128))%N ++ utf8_decode rest 0 0%N
      | S n => utf8_decode rest n (acc * 64 + (b - 128))%N
      end
  end.

(** The JavaScript string denoted by a literal of the source file. *)
Definition js (s : string) : jsstring := utf8_decode s 0 0%N.

(** ECMAScript WhiteSpace and LineTerminator code units, the ones
    [String.prototype.trim] removes. *)
Definition is_js_whitespace (c : N) : bool :=
  ((9 <=? c) && (c <=? 13) || (c =? 32) || (c =? 160) || (c =? 5760)
   || (8192 <=? c) && (c <=? 8202) || (c =? 8232) || (c =? 8233)
   || (c =? 8239) || (c =? 8287) || (c =? 12288) || (c =? 65279))%N.

Fixpoint trimStart (s : jsstring) : jsstring :=
  match s with
  | c :: rest => if is_js_whitespace c then trimStart rest else s
  | [] => []
  end.

Definition trimEnd (s : jsstring) : jsstring := rev (trimStart (rev s)).

(** [s.trim()] *)
Definition trim (s : jsstring) : jsstring := trimEnd (trimStart s).

(** [s.startsWith(prefix)] *)
Fixpoint startsWith (s prefix : jsstring) {struct prefix} : bool :=
  match prefix, s with
  | [], _ => true
  | p :: prefix', c :: s' => (c =? p)%N && startsWith s' prefix'
  | _ :: _, [] => false
  end.

(** Truthiness of a string: only the empty string is falsy. *)
Definition truthy (s : jsstring) : bool :=
  match s with [] => false | _ :: _ => true end.

(* ===================================================================== *)
(** ** Network profiles: the [CHAINS] constant *)
(* ===================================================================== *)

Module Currency.
Record descriptor : Type := { name : jsstring; symbol : jsstring; decimals : Z }.
End Currency.

Record chain_cfg : Type := {
  chainIdHex : jsstring;
  chainIdDec : Z;
  name : jsstring;
  rpcUrls : list jsstring;
  blockExplorer : jsstring;
  currency : Currency.descriptor
}.

(** The keys of [CHAINS]; the network selector offers exactly these. *)
Inductive chain_key : Type := mainnet | sepolia.

Definition CHAINS (k : chain_key) : chain_cfg :=
  match k with
  | mainnet =>
      {| chainIdHex := js "0x1";
         chainIdDec := 1;
         name := js "Ethereum Mainnet";
         rpcUrls := [js "https://rpc.ankr.com/eth"];
         blockExplorer := js "https://etherscan.io";
         currency := {| Currency.name := js "Ether";
                        Currency.symbol := js "ETH";
                        Currency.decimals := 18 |} |}
  | sepolia =>
      {| chainIdHex := js "0xaa36a7";
         chainIdDec := 11155111;
         name := js "Sepolia Testnet";
         rpcUrls := [js "https://rpc.ankr.com/eth_sepolia"];
         blockExplorer := js "https://sepolia.etherscan.io";
         currency := {| Currency.name := js "Sepolia Ether";
                        Currency.symbol := js "SEP";
                        Currency.decimals := 18 |} |}
  end.

Definition TEST_BYTECODE : jsstring := js "0x60006000f3".

(* ===================================================================== *)
(** ** Session state: the [useState] variables of [App] *)
(* ===================================================================== *)

(** [account] is [None] for [null] (and for the [undefined] that
    [accounts[0]] yields on an empty array); [currentChainId] is [None] for
    [null] and for a [NaN] out of [parseInt], neither of which is [===] to
    a chain id. *)
Record SessionState : Type := {
  account : option jsstring;
  status : jsstring;
  bytecode : jsstring;
  txHash : jsstring;
  contractAddress : jsstring;
  currentChainId : option Z;
  target : chain_key
}.

(** The state at mount. *)
Definition initial_state : SessionState :=
  {| account := None; status := []; bytecode := []; txHash := [];
     contractAddress := []; currentChainId := None; target := sepolia |}.

(** One call of a state setter. *)
Inductive update : Type :=
| setAccount (v : option jsstring)
| setStatus (v : jsstring)
| setBytecode (v : jsstring)
| setTxHash (v : jsstring)
| setContractAddress (v : jsstring)
| setCurrentChainId (v : option Z)
| setTarget (v : chain_key).

Definition apply_update (u : update) (s : SessionState) : SessionState :=
  match u with
  | setAccount v =>
      {| account := v; status := status s; bytecode := bytecode s;
         txHash := txHash s; contractAddress := contractAddress s;
         currentChainId := currentChainId s; target := target s |}
  | setStatus v =>
      {| account := account s; status := v; bytecode := bytecode s;
         txHash := txHash s; contractAddress := contractAddress s;
         currentChainId := currentChainId s; target := target s |}
  | setBytecode v =>
      {| account := account s; status := status s; bytecode := v;
         txHash := txHash s; contractAddress := contractAddress s;
         currentChainId := currentChainId s; target := target s |}
  | setTxHash v =>
      {| account := account s; status := status s; bytecode := bytecode s;
         txHash := v; contractAddress := contractAddress s;
         currentChainId := currentChainId s; target := target s |}
  | setContractAddress v =>
      {| account := account s; status := status s; bytecode := bytecode s;
         txHash := txHash s; contractAddress := v;
         currentChainId := currentChainId s; target := target s |}
  | setCurrentChainId v =>
      {| account := account s; status := status s; bytecode := bytecode s;
         txHash := txHash s; contractAddress := contractAddress s;
         currentChainId := v; target := target s |}
  | setTarget v =>
      {| account := account s; status := status s; bytecode := bytecode s;
         txHash := txHash s; contractAddress := contractAddress s;
         currentChainId := currentChainId s; target := v |}
  end.

(* ===================================================================== *)
(** ** The wallet provider and the signer *)
(* ===================================================================== *)

(** A thrown value, as far as the handlers look at it: [err_code] is
    [e?.code] when it is an integer, [err_message] is [e?.message] when it is
    present, [err_string] is [String(e)]. *)
Record js_error : Type := {
  err_code : option Z;
  err_message : option jsstring;
  err_string : jsstring
}.

(** [e?.message || String(e)] *)
Definition error_text (e : js_error) : jsstring :=
  match err_message e with
  | Some m => if truthy m then m else err_string e
  | None => err_string e
  end.

(** The parameter object of [wallet_addEthereumChain]. *)
Module AddParams.
Record params : Type := {
  chainId : jsstring;
  chainName : jsstring;
  nativeCurrency : Currency.descriptor;
  rpcUrls : list jsstring;
  blockExplorerUrls : list jsstring
}.
End AddParams.

(** The transaction object handed to [signer.sendTransaction]: there is no
    [to] field, which is what makes it a contract creation. *)
Module TxRequest.
Record fields : Type := { data : jsstring; gasLimit : Z }.
End TxRequest.

(** The handle [sendTransaction] resolves to. *)
Record tx_response : Type := { hash : jsstring }.

(** A receipt; [receipt_address] is [None] for a [null] address. *)
Record tx_receipt : Type := { receipt_address : option jsstring }.

(** The awaited calls: the first three go through
    [window.ethereum.request], the last three through ethers
    ([new ethers.BrowserProvider(window.ethereum)] followed by
    [provider.getSigner()], [signer.sendTransaction], [tx.wait()]). *)
Inductive request : Type :=
| wallet_switchEthereumChain (chainId : jsstring)
| wallet_addEthereumChain (p : AddParams.params)
| eth_requestAccounts
| getSigner
| sendTransaction (tx : TxRequest.fields)
| wait (tx : tx_response).

(** What each call resolves to. *)
Definition answer (r : request) : Type :=
  match r with
  | wallet_switchEthereumChain _ => unit
  | wallet_addEthereumChain _ => unit
  | eth_requestAccounts => list jsstring
  | getSigner => unit
  | sendTransaction _ => tx_response
  | wait _ => option tx_receipt
  end.

(** A promise settles one way or the other. *)
Inductive outcome (A : Type) : Type :=
| Resolved (v : A)
| Rejected (e : js_error).
Arguments Resolved {A} v.
Arguments Rejected {A} e.

Definition is_resolved {A} (o : outcome A) : bool :=
  match o with Resolved _ => true | Rejected _ => false end.

(** Everything outside the page: whether [window.ethereum] is there (it
    does not come or go while a handler runs), and how each request settles
    given the requests made before it. *)
Record world : Type := {
  ethereum : bool;
  respond : list request -> forall r : request, outcome (answer r)
}.

(* ===================================================================== *)
(** ** Handlers as programs *)
(* ===================================================================== *)

(** A handler body: it returns, throws, tests [window.ethereum], calls a
    setter, or awaits a request and goes on with its outcome. *)
Inductive prog (A : Type) : Type :=
| Ret (a : A)
| Throw (e : js_error)
| ReadEthereum (k : bool -> prog A)
| Update (u : update) (k : prog A)
| Await (r : request) (k : outcome (answer r) -> prog A).
Arguments Ret {A} a.
Arguments Throw {A} e.
Arguments ReadEthereum {A} k.
Arguments Update {A} u k.
Arguments Await {A} r k.

Fixpoint prog_bind {A B} (p : prog A) (f : A -> prog B) : prog B :=
  match p with
  | Ret a => f a
  | Throw e => Throw e
  | ReadEthereum k => ReadEthereum (fun b => prog_bind (k b) f)
  | Update u k => Update u (prog_bind k f)
  | Await r k => Await r (fun o => prog_bind (k o) f)
  end.

(** [try { p } catch (e) { h e }] *)
Fixpoint try_catch {A} (p : prog A) (h : js_error -> prog A) : prog A :=
  match p with
  | Ret a => Ret a
  | Throw e => h e
  | ReadEthereum k => ReadEthereum (fun b => try_catch (k b) h)
  | Update u k => Update u (try_catch k h)
  | Await r k => Await r (fun o => try_catch (k o) h)
  end.

#[global] Instance Monad_prog : Monad prog :=
  {| ret := @Ret; bind := @prog_bind |}.

#[global] Instance MonadExc_prog : MonadExc js_error prog :=
  {| raise := @Throw; catch := @try_catch |}.

(** [!window.ethereum] is tested on its negation below. *)
Definition window_ethereum : prog bool := ReadEthereum (fun b => Ret b).

Definition set (u : update) : prog unit := Update u (Ret tt).

(** [await] of a request: the resolved value, or the rejection rethrown. *)
Definition await (r : request) : prog (answer r) :=
  Await r (fun o => match o with Resolved v => Ret v | Rejected e => Throw e end).

(** [err?.code === 4902] *)
Definition code_is (err : js_error) (c : Z) : bool :=
  match err_code err with
  | Some c' => (c' =? c)%Z
  | None => false
  end.

(** [ensureNetwork(chainKey)] *)
Definition ensureNetwork (chainKey : chain_key) : prog bool :=
  eth <- window_ethereum ;;
  if negb eth then
    set (setStatus (js "MetaMask non détecté.")) ;;
    ret false
  else
    let cfg := CHAINS chainKey in
    catch
      (await (wallet_switchEthereumChain (chainIdHex cfg)) ;;
       set (setStatus (js "Réseau basculé sur " ++ name cfg ++ js ".")) ;;
       ret true)
      (fun err =>
         if code_is err 4902 then
           catch
             (await (wallet_addEthereumChain
                       {| AddParams.chainId := chainIdHex cfg;
                          AddParams.chainName := name cfg;
                          AddParams.nativeCurrency := currency cfg;
                          AddParams.rpcUrls := rpcUrls cfg;
                          AddParams.blockExplorerUrls := [blockExplorer cfg] |}) ;;
              set (setStatus (js "Réseau " ++ name cfg ++ js " ajouté et sélectionné.")) ;;
              ret true)
             (fun e2 =>
                set (setStatus (js "Ajout de réseau refusé dans MetaMask.")) ;;
                ret false)
         else
           set (setStatus (js "Changement de réseau refusé dans MetaMask.")) ;;
           ret false).

(** [connectWallet()], in the render whose state is [s]. *)
Definition connectWallet (s : SessionState) : prog unit :=
  catch
    (eth <- window_ethereum ;;
     if negb eth then
       set (setStatus (js "MetaMask n'est pas détecté. Installe-le d'abord."))
     else
       ok <- ensureNetwork (target s) ;;
       if negb ok then ret tt
       else
         accounts <- await eth_requestAccounts ;;
         set (setAccount (nth_error accounts 0)) ;;
         set (setStatus (js "Wallet connecté.")))
    (fun e => set (setStatus (js "Erreur connexion: " ++ error_text e))).

(** [fillTestBytecode()] *)
Definition fillTestBytecode : prog unit :=
  set (setBytecode TEST_BYTECODE) ;;
  set (setStatus (js "Bytecode de test inséré (contrat vide). Tu peux déployer.")).

(** [!bytecode || bytecode.trim().length < 4] *)
Definition payload_rejected (bytecode : jsstring) : bool :=
  negb (truthy bytecode) || (Z.of_nat (List.length (trim bytecode)) <? 4)%Z.

(** [bytecode.startsWith("0x") ? bytecode : "0x" + bytecode] *)
Definition dataHex (bytecode : jsstring) : jsstring :=
  if startsWith bytecode (js "0x") then bytecode else js "0x" ++ bytecode.

(** [receipt?.contractAddress || ""] *)
Definition receipt_addr (receipt : option tx_receipt) : jsstring :=
  match receipt with
  | Some r =>
      match receipt_address r with
      | Some a => if truthy a then a else []
      | None => []
      end
  | None => []
  end.

(** [deployContract()], in the render whose state is [s]. *)
Definition deployContract (s : SessionState) : prog unit :=
  set (setStatus []) ;;
  set (setTxHash []) ;;
  set (setContractAddress []) ;;
  catch
    (eth <- window_ethereum ;;
     if negb eth then
       set (setStatus (js "MetaMask requis."))
     else if payload_rejected (bytecode s) then
       set (setStatus (js "Colle un creation bytecode valide (0x...), ou clique 'Remplir un bytecode de test'."))
     else
       ok <- ensureNetwork sepolia ;;
       if negb ok then ret tt
       else
         await getSigner ;;
         set (setStatus (js "Préparation de la transaction… vérifie MetaMask.")) ;;
         tx <- await (sendTransaction
                        {| TxRequest.data := dataHex (bytecode s);
                           TxRequest.gasLimit := 70000 |}) ;;
         set (setTxHash (hash tx)) ;;
         set (setStatus (js "Transaction envoyée. Attente de confirmation…")) ;;
         receipt <- await (wait tx) ;;
         let addr := receipt_addr receipt in
         set (setContractAddress addr) ;;
         set (setStatus
                (if truthy addr
                 then js "Confirmé ✅ Contrat déployé à " ++ addr
                 else js "Confirmé, mais pas d'adresse de contrat (bytecode probablement non-créateur).")))
    (fun e => set (setStatus (js "Erreur: " ++ error_text e))).

(** The network selector's [onChange], and the [chainChanged] listener
    ([hex] already through [parseInt(hex, 16)]). *)
Definition selectTarget (key : chain_key) : prog unit := set (setTarget key).

Definition onChainChanged (parsed : option Z) : prog unit :=
  set (setCurrentChainId parsed).

(** The Disconnect button's [onClick]. *)
Definition disconnect : prog unit :=
  set (setAccount None) ;;
  set (setStatus (js "Déconnecté.")).

(** The Reset button's [onClick]. *)
Definition reset : prog unit :=
  set (setBytecode []) ;;
  set (setStatus []) ;;
  set (setTxHash []) ;;
  set (setContractAddress []).

(** [explorerBase], the memoised value of the render whose state is [s]. *)
Definition explorerBase (s : SessionState) : jsstring :=
  match currentChainId s with
  | Some c =>
      if (c =? chainIdDec (CHAINS sepolia))%Z then blockExplorer (CHAINS sepolia)
      else if (c =? chainIdDec (CHAINS mainnet))%Z then blockExplorer (CHAINS mainnet)
      else blockExplorer (CHAINS (target s))
  | None => blockExplorer (CHAINS (target s))
  end.

(* ===================================================================== *)
(** ** Running a handler *)
(* ===================================================================== *)

(** What a handler did, in order. *)
Inductive action : Type :=
| ARead (present : bool)
| ASet (u : update)
| ARequest (r : request).

Inductive completion (A : Type) : Type :=
| Normal (a : A)
| Thrown (e : js_error).
Arguments Normal {A} a.
Arguments Thrown {A} e.

Record run_result (A : Type) : Type := {
  final_state : SessionState;
  trace : list action;
  completed : completion A
}.

Arguments final_state {A} r.
Arguments trace {A} r.
Arguments completed {A} r.

Definition emit {A} (a : action) (r : run_result A) : run_result A :=
  {| final_state := final_state r;
     trace := a :: trace r;
     completed := completed r |}.

(** [run w p s h]: handler [p] started in state [s], after the requests [h]
    were made to the world [w]. *)
Fixpoint run {A} (w : world) (p : prog A) (s : SessionState) (h : list request)
  : run_result A :=
  match p with
  | Ret a => {| final_state := s; trace := []; completed := Normal a |}
  | Throw e => {| final_state := s; trace := []; completed := Thrown e |}
  | ReadEthereum k => emit (ARead (ethereum w)) (run w (k (ethereum w)) s h)
  | Update u k => emit (ASet u) (run w k (apply_update u s) h)
  | Await r k => emit (ARequest r) (run w (k (respond w h r)) s (h ++ [r]))
  end.

(** The requests of a trace, in order. *)
Fixpoint requests (tr : list action) : list request :=
  match tr with
  | ARequest r :: tr' => r :: requests tr'
  | _ :: tr' => requests tr'
  | [] => []
  end.

(** *** Composite runs and the requests of the handlers *)

(** The run of [p] followed, when [p] returns, by the run [f] gives for
    the returned value. *)
Definition seq_result {A B} (r : run_result A) (f : A -> run_result B)
  : run_result B :=
  match completed r with
  | Normal a =>
      {| final_state := final_state (f a);
         trace := trace r ++ trace (f a);
         completed := completed (f a) |}
  | Thrown e =>
      {| final_state := final_state r; trace := trace r; completed := Thrown e |}
  end.

(** The run of [p] followed, when [p] throws, by the run [f] gives for the
    thrown value. *)
Definition catch_result {A} (r : run_result A) (f : js_error -> run_result A)
  : run_result A :=
  match completed r with
  | Normal a => r
  | Thrown e =>
      {| final_state := final_state (f e);
         trace := trace r ++ trace (f e);
         completed := completed (f e) |}
  end.

(** The [wallet_addEthereumChain] request [ensureNetwork] builds from a
    profile, field by field. *)
Definition add_request_of (cfg : chain_cfg) : request :=
  wallet_addEthereumChain
    {| AddParams.chainId := chainIdHex cfg;
       AddParams.chainName := name cfg;
       AddParams.nativeCurrency := currency cfg;
       AddParams.rpcUrls := rpcUrls cfg;
       AddParams.blockExplorerUrls := [blockExplorer cfg] |}.

Definition switch_request_of (cfg : chain_cfg) : request :=
  wallet_switchEthereumChain (chainIdHex cfg).

(** The state once the three opening setter calls of [deployContract] have
    been applied. *)
Definition after_clearing (s : SessionState) : SessionState :=
  apply_update (setContractAddress [])
    (apply_update (setTxHash []) (apply_update (setStatus []) s)).

(* ===================================================================== *)
(** ** Concrete worlds and sessions *)
(* ===================================================================== *)

(** What a granting wallet and signer resolve each request to. *)
Definition granted (r : request) : answer r :=
  match r with
  | wallet_switchEthereumChain _ => tt
  | wallet_addEthereumChain _ => tt
  | eth_requestAccounts => [js "0x52908400098527886E0F7030069857D2E4169EE7"]
  | getSigner => tt
  | sendTransaction _ =>
      {| hash := js "0x88df016429689c079f3b2f6ad39fa052532c56795b733da78a91ebe6a713944b" |}
  | wait _ =>
      Some {| receipt_address := Some (js "0x8617E340B3D01FA5F11F306F4090FD50E238070D") |}
  end.

(** A present wallet that rejects the requests [refuses] picks, with the
    error it gives, and grants the others. *)
Definition wallet (refuses : list request -> request -> option js_error) : world :=
  {| ethereum := true;
     respond := fun h r =>
       match refuses h r with
       | Some e => Rejected e
       | None => Resolved (granted r)
       end |}.

(** An [Error]-like object with a numeric code, as providers reject with. *)
Definition provider_error (code : Z) (message : string) : js_error :=
  {| err_code := Some code;
     err_message := Some (js message);
     err_string := js "Error: " ++ js message |}.

Definition world_granting : world := wallet (fun _ _ => None).

(** The user dismisses the switch prompt (EIP-1193 code 4001). *)
Definition world_switch_refused : world :=
  wallet (fun _ r =>
            match r with
            | wallet_switchEthereumChain _ =>
                Some (provider_error 4001 "User rejected the request.")
            | _ => None
            end).

(** The wallet does not know the chain yet, and accepts to add it. *)
Definition world_unknown_chain : world :=
  wallet (fun _ r =>
            match r with
            | wallet_switchEthereumChain _ =>
                Some (provider_error 4902 "Unrecognized chain ID.")
            | _ => None
            end).

(** The transaction is sent, and waiting for its confirmation fails. *)
Definition confirmation_error : js_error :=
  {| err_code := None;
     err_message := Some (js "transaction execution reverted");
     err_string := js "Error: transaction execution reverted" |}.

Definition world_confirmation_fails : world :=
  wallet (fun _ r =>
            match r with
            | wait _ => Some confirmation_error
            | _ => None
            end).

(** No wallet extension at all. *)
Definition world_without_wallet : world :=
  {| ethereum := false;
     respond := fun _ r =>
       Rejected {| err_code := None; err_message := None;
                   err_string := js "undefined" |} |}.

(** A session with Mainnet selected and a payload typed without prefix. *)
Definition session_mainnet : SessionState :=
  {| account := None; status := []; bytecode := js "60006000f3"; txHash := [];
     contractAddress := []; currentChainId := Some 1%Z; target := mainnet |}.

(** A session with a payload too short to deploy. *)
Definition session_short_payload : SessionState :=
  {| account := None; status := []; bytecode := js "  0x "; txHash := [];
     contractAddress := []; currentChainId := None; target := sepolia |}.

(** A connected session that has just deployed the test contract. *)
Definition session_after_deploy : SessionState :=
  {| account := Some (js "0x52908400098527886E0F7030069857D2E4169EE7");
     status := js "Confirmé ✅ Contrat déployé à 0x8617E340B3D01FA5F11F306F4090FD50E238070D";
     bytecode := TEST_BYTECODE;
     txHash := js "0x88df016429689c079f3b2f6ad39fa052532c56795b733da78a91ebe6a713944b";
     contractAddress := js "0x8617E340B3D01FA5F11F306F4090FD50E238070D";
     currentChainId := Some 11155111%Z;
     target := sepolia |}.

(* ===================================================================== *)
(** ** The chain listener and what the page renders *)
(* ===================================================================== *)

(** The value of a hexadecimal digit, in either letter case. *)
Definition hex_digit (c : N) : option Z :=
  if ((48 <=? c) && (c <=? 57))%N then Some (Z.of_N c - 48)%Z
  else if ((97 <=? c) && (c <=? 102))%N then Some (Z.of_N c - 87)%Z
  else if ((65 <=? c) && (c <=? 70))%N then Some (Z.of_N c - 55)%Z
  else None.

(** The value of the longest run of hexadecimal digits [s] starts with,
    continuing from [acc]; [None] while no digit has been read. *)
Fixpoint hex_value (s : jsstring) (acc : option Z) : option Z :=
  match s with
  | c :: rest =>
      match hex_digit c with
      | Some d =>
          hex_value rest
            (Some (16 * match acc with Some a => a | None => 0 end + d)%Z)
      | None => acc
      end
  | [] => acc
  end.

(** [parseInt(s, 16)]: leading white space is skipped, then an optional
    sign, then an optional "0x" or "0X", then digits up to the first code
    unit that is not one; [None] is [NaN]. The Number returned is the double
    nearest to this integer, which is the integer itself up to 2^53; above
    that it still differs from every chain id of [CHAINS] and is truthy. *)
Definition parseInt16 (s : jsstring) : option Z :=
  let s1 := trimStart s in
  let sign := match s1 with 45%N :: _ => (-1)%Z | _ => 1%Z end in
  let s2 :=
    match s1 with
    | 45%N :: rest => rest
    | 43%N :: rest => rest
    | _ => s1
    end in
  let s3 :=
    match s2 with
    | 48%N :: x :: rest => if ((x =? 120) || (x =? 88))%N then rest else s2
    | _ => s2
    end in
  option_map (Z.mul sign) (hex_value s3 None).

(** [handler], which the mount effect feeds with the wallet's chain id and
    registers (as [onChainChanged]) for its changes. *)
Definition handler (hex : jsstring) : prog unit :=
  set (setCurrentChainId (parseInt16 hex)).

(** The mount effect, given how its [eth_chainId] query settles (that query
    is not one of the [request]s of the button handlers): nothing without a
    provider; the resolved id goes to [handler]; a rejection is swallowed by
    [.catch(() => {})]. *)
Definition observeChain (reply : outcome jsstring) : prog unit :=
  eth <- window_ethereum ;;
  if negb eth then ret tt
  else
    match reply with
    | Resolved hex => handler hex
    | Rejected _ => ret tt
    end.

(** [shorten(addr)]: [addr.slice(0, 6) + "…" + addr.slice(-4)], or the empty
    string for an empty address. *)
Definition shorten (addr : jsstring) : jsstring :=
  if truthy addr
  then firstn 6 addr ++ js "…" ++ skipn (List.length addr - 4) addr
  else [].

(** The wallet line: [account ? shorten(account) : "Aucun wallet"]. *)
Definition walletLabel (s : SessionState) : jsstring :=
  match account s with
  | Some a => if truthy a then shorten a else js "Aucun wallet"
  | None => js "Aucun wallet"
  end.

(** Which of the two wallet buttons is rendered. *)
Inductive wallet_button : Type := ConnectButton | DisconnectButton.

Definition walletButton (s : SessionState) : wallet_button :=
  match account s with
  | Some a => if truthy a then DisconnectButton else ConnectButton
  | None => ConnectButton
  end.

(** The "Réseau actuel (wallet)" pill. [Number_toString] is the text of a
    number inside the template literal [`ChainId ${currentChainId}`]. *)
Definition networkLabel (Number_toString : Z -> jsstring) (s : SessionState)
  : jsstring :=
  match currentChainId s with
  | Some c =>
      if (c =? chainIdDec (CHAINS sepolia))%Z then js "Sepolia"
      else if (c =? chainIdDec (CHAINS mainnet))%Z then js "Mainnet"
      else if (c =? 0)%Z then js "inconnu"
      else js "ChainId " ++ Number_toString c
  | None => js "inconnu"
  end.

(** [status || "—"] *)
Definition statusText (s : SessionState) : jsstring :=
  if truthy (status s) then status s else js "—".

(** The [href] of the transaction link, rendered only for a non-empty
    hash, and of the address link, likewise. *)
Definition txLink (s : SessionState) : option jsstring :=
  if truthy (txHash s)
  then Some (explorerBase s ++ js "/tx/" ++ txHash s)
  else None.

Definition addressLink (s : SessionState) : option jsstring :=
  if truthy (contractAddress s)
  then Some (explorerBase s ++ js "/address/" ++ contractAddress s)
  else None.

(** Requests that submit a transaction, and requests that wait for one. *)
Definition is_sendTransaction (q : request) : bool :=
  match q with sendTransaction _ => true | _ => false end.

Definition is_wait (q : request) : bool :=
  match q with wait _ => true | _ => false end.

(** A wallet that grants the network and has no account to give. *)
Definition world_no_account : world :=
  {| ethereum := true;
     respond := fun _ r =>
       match r with
       | eth_requestAccounts => Resolved []
       | q => Resolved (granted q)
       end |}.

(** The user dismisses the account, signer or signature prompt. *)
Definition world_refusing (refused : request -> bool) : world :=
  wallet (fun _ r =>
            if refused r
            then Some (provider_error 4001 "User rejected the request.")
            else None).

Definition is_requestAccounts (q : request) : bool :=
  match q with eth_requestAccounts => true | _ => false end.

Definition is_getSigner (q : request) : bool :=
  match q with getSigner => true | _ => false end.

(** A session whose payload was pasted with a leading space. *)
Definition session_spaced_payload : SessionState :=
  {| account := None; status := []; bytecode := js " 0x6000"; txHash := [];
     contractAddress := []; currentChainId := None; target := sepolia |}.

(** The transaction is mined without creating a contract. *)
Definition world_no_contract : world :=
  {| ethereum := true;
     respond := fun _ r =>
       match r with
       | wait _ => Resolved (Some {| receipt_address := None |})
       | q => Resolved (granted q)
       end |}.

(* ===================================================================== *)
(** ** General facts about runs *)
(* ===================================================================== *)

Arguments js : simpl never.
Arguments CHAINS : simpl never.
Arguments payload_rejected : simpl never.
Arguments dataHex : simpl never.
Arguments error_text : simpl never.
Arguments receipt_addr : simpl never.

Lemma run_result_eta A (r : run_result A) :
  {| final_state := final_state r; trace := trace r; completed := completed r |} = r.
Proof. destruct r; reflexivity. Qed.

(** Sequencing: the second handler starts in the state and after the
    requests the first one leaves, unless the first one throws. *)
Lemma run_bind A B (w : world) (p : prog A) (f : A -> prog B) :
  forall s h,
    run w (prog_bind p f) s h =
    seq_result (run w p s h)
      (fun a => run w (f a) (final_state (run w p s h))
                  (h ++ requests (trace (run w p s h)))).
Proof.
  induction p as [a | e | k IH | u k IH | r k IH]; intros s h; simpl.
  - unfold seq_result; simpl. rewrite app_nil_r. symmetry; apply run_result_eta.
  - reflexivity.
  - rewrite IH. unfold seq_result, emit; simpl.
    destruct (run w (k (ethereum w)) s h) as [fs tr [a | e]]; reflexivity.
  - rewrite IH. unfold seq_result, emit; simpl.
    destruct (run w k (apply_update u s) h) as [fs tr [a | e]]; reflexivity.
  - rewrite IH. unfold seq_result, emit; simpl.
    rewrite <- !app_assoc; simpl.
    destruct (run w (k (respond w h r)) s (h ++ [r])) as [fs tr [a | e]];
      reflexivity.
Qed.

(** [try]/[catch]: the handler of the [catch] runs only on a throw, from
    the state reached at the throw. *)
Lemma run_try_catch A (w : world) (p : prog A) (hd : js_error -> prog A) :
  forall s h,
    run w (try_catch p hd) s h =
    catch_result (run w p s h)
      (fun e => run w (hd e) (final_state (run w p s h))
                  (h ++ requests (trace (run w p s h)))).
Proof.
  induction p as [a | e | k IH | u k IH | r k IH]; intros s h; simpl.
  - reflexivity.
  - unfold catch_result; simpl. rewrite app_nil_r. symmetry; apply run_result_eta.
  - rewrite IH. unfold catch_result, emit; simpl.
    destruct (run w (k (ethereum w)) s h) as [fs tr [a | e]]; reflexivity.
  - rewrite IH. unfold catch_result, emit; simpl.
    destruct (run w k (apply_update u s) h) as [fs tr [a | e]]; reflexivity.
  - rewrite IH. unfold catch_result, emit; simpl.
    rewrite <- !app_assoc; simpl.
    destruct (run w (k (respond w h r)) s (h ++ [r])) as [fs tr [a | e]];
      reflexivity.
Qed.

(** A handler never reads the state it runs in (a render's values reach it
    as arguments), so what it does is the same from any state. *)
Lemma trace_state_irrelevant A (w : world) (p : prog A) :
  forall s s' h, trace (run w p s h) = trace (run w p s' h).
Proof.
  induction p as [a | e | k IH | u k IH | r k IH]; intros s s' h; simpl;
    try reflexivity; f_equal; auto.
Qed.

Lemma completed_state_irrelevant A (w : world) (p : prog A) :
  forall s s' h, completed (run w p s h) = completed (run w p s' h).
Proof.
  induction p as [a | e | k IH | u k IH | r k IH]; intros s s' h; simpl;
    try reflexivity; auto.
Qed.

(* ===================================================================== *)
(** ** [ensureNetwork] *)
(* ===================================================================== *)

(** C2. With a provider present and for either network key: when the switch
    request is rejected with code 4902, the requests of [ensureNetwork] are
    the switch followed by exactly one add-chain request carrying the
    profile's chain id hex, display name, native currency, RPC URLs and
    explorer URL, and the result is whether that add request resolved; when
    it is rejected with any other code (or none), the switch is the only
    request and the result is [false]. *)
Theorem ensureNetwork_unrecognized_chain
    (w : world) (s : SessionState) (h : list request) (key : chain_key)
    (err : js_error) :
  let cfg := CHAINS key in
  let r := run w (ensureNetwork key) s h in
  ethereum w = true ->
  respond w h (wallet_switchEthereumChain (chainIdHex cfg)) = Rejected err ->
  (err_code err = Some 4902%Z ->
   requests (trace r) =
     [wallet_switchEthereumChain (chainIdHex cfg);
      wallet_addEthereumChain
        {| AddParams.chainId := chainIdHex cfg;
           AddParams.chainName := name cfg;
           AddParams.nativeCurrency := currency cfg;
           AddParams.rpcUrls := rpcUrls cfg;
           AddParams.blockExplorerUrls := [blockExplorer cfg] |}]
   /\ completed r =
        Normal (is_resolved
                  (respond w (h ++ [switch_request_of cfg]) (add_request_of cfg))))
  /\ (err_code err <> Some 4902%Z ->
      requests (trace r) = [wallet_switchEthereumChain (chainIdHex cfg)]
      /\ completed r = Normal false).
Proof.
  intros cfg r Heth Hsw. subst r. unfold ensureNetwork. fold cfg.
  cbn. rewrite Heth. cbn. rewrite Hsw. cbn.
  unfold code_is. split.
  - intros Hcode. rewrite Hcode. cbn.
    unfold switch_request_of, add_request_of.
    destruct (respond w (h ++ _) _) as [[] | e2]; cbn; auto.
  - intros Hcode. destruct (err_code err) as [c |]; cbn; auto.
    destruct (Z.eqb_spec c 4902) as [-> | Hne]; [congruence |].
    cbn; auto.
Qed.

(** Symbolic execution of a handler: settle the provider test and each
    awaited request one way and the other. *)
Ltac settle :=
  cbn in *;
  repeat
    (match goal with
     | H : ethereum ?w = _ |- context [ethereum ?w] => rewrite H
     | H : respond ?w ?h ?q = _ |- context [respond ?w ?h ?q] => rewrite H
     | H : code_is ?e ?c = _ |- context [code_is ?e ?c] => rewrite H
     | H : payload_rejected ?b = _ |- context [payload_rejected ?b] => rewrite H
     | |- context [ethereum ?w] => destruct (ethereum w) eqn:?
     | |- context [match respond ?w ?h ?q with _ => _ end] =>
         destruct (respond w h q) eqn:?
     | |- context [code_is ?e ?c] => destruct (code_is e c) eqn:?
     | |- context [payload_rejected ?b] => destruct (payload_rejected b) eqn:?
     end; cbn in *).

(** Splits the conjunctions of the goal, and nothing else. *)
Ltac conjs := repeat match goal with |- _ /\ _ => split end.

(** Where a list that starts with [a] can be split around [x]. *)
Lemma split_cons_inv A (a x : A) (l pre post : list A) :
  a :: l = pre ++ x :: post ->
  (pre = [] /\ a = x /\ l = post)
  \/ (exists pre', pre = a :: pre' /\ l = pre' ++ x :: post).
Proof.
  destruct pre as [| b pre']; cbn; intros H; injection H as -> ->; eauto.
Qed.

Lemma split_nil_inv A (x : A) (pre post : list A) :
  [] = pre ++ x :: post -> False.
Proof. destruct pre; discriminate. Qed.

(** Finds every position at which the concrete list of [H : l = pre ++ x ::
    post] can be split. *)
Ltac locate :=
  repeat
    match goal with
    | H : [] = _ ++ _ :: _ |- _ => destruct (split_nil_inv _ _ _ _ H)
    | H : _ :: _ = _ ++ _ :: _ |- _ =>
        apply split_cons_inv in H;
        destruct H as [[? [H ?]] | [? [? H]]];
        [ first [discriminate H | injection H as ?] | ]
    end.

(** [ensureNetwork] always returns a boolean, and asks the wallet for
    nothing but the switch and, after it, the add of the profile. *)
Lemma ensureNetwork_shape (w : world) (s : SessionState) (h : list request)
    (key : chain_key) :
  let r := run w (ensureNetwork key) s h in
  let cfg := CHAINS key in
  (completed r = Normal false /\ requests (trace r) = [])
  \/ (exists b, completed r = Normal b
                /\ requests (trace r) = [switch_request_of cfg])
  \/ (exists b, completed r = Normal b
                /\ requests (trace r) = [switch_request_of cfg; add_request_of cfg]).
Proof.
  unfold ensureNetwork, switch_request_of, add_request_of.
  settle; eauto.
Qed.

Lemma ensureNetwork_returns (w : world) (s : SessionState) (h : list request)
    (key : chain_key) :
  exists b, completed (run w (ensureNetwork key) s h) = Normal b.
Proof.
  destruct (ensureNetwork_shape w s h key) as [[H _] | [[b [H _]] | [b [H _]]]];
    eauto.
Qed.

(** A granted network starts with the switch request. *)
Lemma ensureNetwork_true_switches (w : world) (s : SessionState)
    (h : list request) (key : chain_key) :
  completed (run w (ensureNetwork key) s h) = Normal true ->
  hd_error (requests (trace (run w (ensureNetwork key) s h)))
  = Some (switch_request_of (CHAINS key)).
Proof.
  intros H.
  destruct (ensureNetwork_shape w s h key) as [[H' _] | [[b [_ E]] | [b [_ E]]]];
    [congruence | rewrite E; reflexivity ..].
Qed.

(* ===================================================================== *)
(** ** [deployContract] *)
(* ===================================================================== *)

(** C1. Whatever target is selected, a deploy that passes its local checks
    runs [ensureNetwork] for Sepolia right after them and stops there when
    it returns [false]; every switch request of a deploy names Sepolia's
    chain id; every submitted transaction comes after the requests of a
    successful [ensureNetwork "sepolia"], the first of which is the switch to
    Sepolia; and when that call fails no transaction is submitted. *)
Theorem deployContract_forces_sepolia
    (w : world) (s : SessionState) (h : list request) :
  let r := run w (deployContract s) s h in
  let e := run w (ensureNetwork sepolia) (after_clearing s) h in
  (forall k : chain_key,
      let s' := apply_update (setTarget k) s in
      trace (run w (deployContract s') s' h) = trace r)
  /\ (ethereum w = true -> payload_rejected (bytecode s) = false ->
      exists rest,
        trace r =
          [ASet (setStatus []); ASet (setTxHash []); ASet (setContractAddress []);
           ARead true] ++ trace e ++ rest
        /\ (completed e = Normal false ->
            rest = [] /\ final_state r = final_state e))
  /\ (forall c, In (wallet_switchEthereumChain c) (requests (trace r)) ->
                c = chainIdHex (CHAINS sepolia))
  /\ (forall tx before after,
         requests (trace r) = before ++ sendTransaction tx :: after ->
         completed e = Normal true
         /\ hd_error before
            = Some (wallet_switchEthereumChain (chainIdHex (CHAINS sepolia)))
         /\ exists rest, before = requests (trace e) ++ rest)
  /\ (completed e = Normal false ->
      forall tx, ~ In (sendTransaction tx) (requests (trace r))).
Proof.
  intros r e. subst r e. split; [| split; [| split; [| split]]].
  - intros k s'. subst s'. unfold deployContract.
    cbn [bytecode apply_update]. apply trace_state_irrelevant.
  - intros Heth Hpay. unfold deployContract, ensureNetwork, after_clearing.
    settle; try discriminate.
    all: eexists; split; [reflexivity |]; intros; try discriminate; auto.
  - unfold deployContract, ensureNetwork. settle.
    all: intros c H; repeat (destruct H as [H | H]; [congruence |]); try contradiction.
  - unfold deployContract, ensureNetwork, after_clearing. settle.
    all: intros tx before after H; locate; subst.
    all: conjs; try reflexivity; try discriminate.
    all: eexists; reflexivity.
  - unfold deployContract, ensureNetwork, after_clearing. settle.
    all: intros Hfail tx Hin; try discriminate Hfail.
    all: repeat (destruct Hin as [Hin | Hin]; [discriminate Hin |]); contradiction.
Qed.

(** Histories are extended one request at a time; this puts them back in
    the form [h ++ [q1; ...; qn]]. *)
Ltac histories := repeat rewrite <- app_assoc in *; cbn [app] in *.

(** Two facts about how the world settles one request must agree. *)
Ltac agree :=
  repeat
    match goal with
    | H1 : respond ?w ?k ?q = _, H2 : respond ?w ?k ?q = _ |- _ =>
        rewrite H1 in H2
    | H : Resolved _ = Rejected _ |- _ => discriminate H
    | H : Rejected _ = Resolved _ |- _ => discriminate H
    | H : Resolved _ = Resolved _ |- _ => injection H as H; try subst
    | H : Rejected _ = Rejected _ |- _ => injection H as H; try subst
    end.

Lemma startsWith_spec (s prefix : jsstring) :
  startsWith s prefix = true <-> exists rest, s = prefix ++ rest.
Proof.
  revert s. induction prefix as [| p prefix IH]; intros s; cbn.
  - split; eauto.
  - destruct s as [| c s]; [split; [discriminate | intros [rest H]; discriminate] |].
    rewrite andb_true_iff, N.eqb_eq, IH. split.
    + intros [-> [rest ->]]. eauto.
    + intros [rest H]. injection H as -> ->. eauto.
Qed.

(** A payload shorter than four code units once trimmed is rejected. *)
Lemma short_payload_rejected (b : jsstring) :
  (Z.of_nat (List.length (trim b)) < 4)%Z -> payload_rejected b = true.
Proof.
  intros H. unfold payload_rejected.
  apply orb_true_iff. right. apply Z.ltb_lt. exact H.
Qed.

(** No failure escapes [deployContract]. *)
Lemma deployContract_returns (w : world) (s : SessionState) (h : list request) :
  completed (run w (deployContract s) s h) = Normal tt.
Proof.
  unfold deployContract, ensureNetwork. settle; reflexivity.
Qed.

(** C4. A payload whose trimmed length is under 4 (the empty payload
    included) makes [deployContract] stop before any request: the trace has
    no request at all, no hash or address is recorded, and the status is the
    instruction to paste a valid bytecode (or, without a wallet provider,
    the earlier notice that one is required). *)
Theorem deployContract_rejects_short_payload
    (w : world) (s : SessionState) (h : list request) :
  let r := run w (deployContract s) s h in
  (Z.of_nat (List.length (trim (bytecode s))) < 4)%Z ->
  requests (trace r) = []
  /\ completed r = Normal tt
  /\ txHash (final_state r) = []
  /\ contractAddress (final_state r) = []
  /\ (ethereum w = true ->
      status (final_state r)
      = js "Colle un creation bytecode valide (0x...), ou clique 'Remplir un bytecode de test'.")
  /\ (ethereum w = false -> status (final_state r) = js "MetaMask requis.").
Proof.
  intros r Hshort. subst r.
  apply short_payload_rejected in Hshort.
  unfold deployContract. settle; try discriminate.
  all: conjs; intros.
  all: match goal with
       | H : true = false |- _ => discriminate H
       | H : false = true |- _ => discriminate H
       | _ => reflexivity
       end.
Qed.

(** C5. Every transaction [deployContract] submits carries as data the
    payload itself when the payload starts with "0x" and "0x" followed by
    the payload when it does not (with the gas limit 70000); a deploy whose
    payload is accepted, whose network step succeeds and whose signer is
    granted does submit it; for the payload "60006000f3" the data is
    "0x60006000f3". *)
Theorem deployContract_data_prefix
    (w : world) (s : SessionState) (h : list request) :
  let r := run w (deployContract s) s h in
  let e := run w (ensureNetwork sepolia) (after_clearing s) h in
  (forall tx, In (sendTransaction tx) (requests (trace r)) ->
     TxRequest.gasLimit tx = 70000%Z
     /\ ((exists rest, bytecode s = js "0x" ++ rest) ->
         TxRequest.data tx = bytecode s)
     /\ (~ (exists rest, bytecode s = js "0x" ++ rest) ->
         TxRequest.data tx = js "0x" ++ bytecode s)
     /\ (bytecode s = js "60006000f3" -> TxRequest.data tx = js "0x60006000f3"))
  /\ (ethereum w = true ->
      payload_rejected (bytecode s) = false ->
      completed e = Normal true ->
      is_resolved (respond w (h ++ requests (trace e)) getSigner) = true ->
      exists tx, In (sendTransaction tx) (requests (trace r))).
Proof.
  intros r e. subst r e. split.
  - assert (Hdata : forall tx,
               In (sendTransaction tx) (requests (trace (run w (deployContract s) s h))) ->
               tx = {| TxRequest.data := dataHex (bytecode s);
                       TxRequest.gasLimit := 70000 |}).
    { unfold deployContract, ensureNetwork. settle.
      all: intros tx Hin.
      all: repeat (destruct Hin as [Hin | Hin];
                   [first [discriminate Hin | injection Hin as <-; reflexivity] |]).
      all: contradiction. }
    intros tx Hin. rewrite (Hdata tx Hin). cbn [TxRequest.data TxRequest.gasLimit].
    unfold dataHex. split; [reflexivity |].
    destruct (startsWith (bytecode s) (js "0x")) eqn:Hpre.
    + apply startsWith_spec in Hpre. conjs; auto.
      * intros Hno. contradiction.
      * intros Hb. rewrite Hb in Hpre. destruct Hpre as [rest Hrest].
        discriminate Hrest.
    + conjs; auto.
      * intros Hyes. apply startsWith_spec in Hyes. congruence.
      * intros ->. reflexivity.
  - unfold deployContract, ensureNetwork, after_clearing.
    intros Heth Hpay. settle; try discriminate.
    all: intros Hok Hsigner; try discriminate Hok.
    all: histories.
    all: repeat match goal with
           | H : respond _ _ _ = _ |- _ => rewrite H in *
           end; try discriminate.
    all: eexists; cbn; eauto.
Qed.

(** C6. When the confirmation wait on a submitted transaction is rejected,
    [deployContract] still returns normally, the hash recorded at submission
    is the final transaction hash, the final status is "Erreur: " followed
    by the text of the failure ([e?.message || String(e)]: its message when
    it has a non-empty one), and no contract address is recorded. *)
Theorem deployContract_confirmation_failure
    (w : world) (s : SessionState) (h : list request)
    (tx : tx_response) (before after : list request) (err : js_error) :
  let r := run w (deployContract s) s h in
  requests (trace r) = before ++ wait tx :: after ->
  respond w (h ++ before) (wait tx) = Rejected err ->
  completed r = Normal tt
  /\ txHash (final_state r) = hash tx
  /\ status (final_state r) = js "Erreur: " ++ error_text err
  /\ (forall m, err_message err = Some m -> m <> [] ->
      status (final_state r) = js "Erreur: " ++ m)
  /\ contractAddress (final_state r) = [].
Proof.
  intros r. subst r. unfold deployContract, ensureNetwork.
  settle.
  all: intros Hsplit Hwait; locate; subst; histories.
  all: agree.
  all: conjs; try reflexivity.
  all: intros m Hm Hne; unfold error_text; rewrite Hm.
  all: destruct m; [contradiction | reflexivity].
Qed.

(** C10. Every deploy starts with the three setter calls that empty the
    status, the transaction hash and the contract address, and only then
    tests for the provider; so a deploy that stops on a missing provider or
    on a rejected payload makes no request and still leaves the hash and the
    address of an earlier deploy erased. *)
Theorem deployContract_clears_first
    (w : world) (s : SessionState) (h : list request) :
  let r := run w (deployContract s) s h in
  (exists rest,
      trace r =
        ASet (setStatus []) :: ASet (setTxHash []) :: ASet (setContractAddress [])
        :: ARead (ethereum w) :: rest)
  /\ (ethereum w = false \/ payload_rejected (bytecode s) = true ->
      requests (trace r) = []
      /\ txHash (final_state r) = []
      /\ contractAddress (final_state r) = []
      /\ account (final_state r) = account s
      /\ bytecode (final_state r) = bytecode s).
Proof.
  intros r. subst r. unfold deployContract. split.
  - cbn. eexists. reflexivity.
  - intros Hlocal. settle.
    all: try (destruct Hlocal; discriminate).
    all: conjs; reflexivity.
Qed.

(* ===================================================================== *)
(** ** [connectWallet] *)
(* ===================================================================== *)

(** No failure escapes [connectWallet]. *)
Lemma connectWallet_returns (w : world) (s : SessionState) (h : list request) :
  completed (run w (connectWallet s) s h) = Normal tt.
Proof.
  unfold connectWallet, ensureNetwork. settle; reflexivity.
Qed.

(** C3. In a run of [connectWallet], when [ensureNetwork] for the selected
    target returns [false] the trace holds no [eth_requestAccounts] request;
    when it returns [true] the account request follows the network requests
    and, once it resolves, the first element of the returned list becomes
    the connected account. *)
Theorem connectWallet_network_first
    (w : world) (s : SessionState) (h : list request) :
  let r := run w (connectWallet s) s h in
  let e := run w (ensureNetwork (target s)) s h in
  (completed e = Normal false ->
   ~ In eth_requestAccounts (requests (trace r)))
  /\ (completed e = Normal true ->
      requests (trace r) = requests (trace e) ++ [eth_requestAccounts]
      /\ forall accounts,
           respond w (h ++ requests (trace e)) eth_requestAccounts
           = Resolved accounts ->
           account (final_state r) = nth_error accounts 0
           /\ status (final_state r) = js "Wallet connecté.").
Proof.
  intros r e. subst r e. unfold connectWallet, ensureNetwork. split.
  - settle.
    all: intros Hfail Hin; try discriminate Hfail.
    all: repeat (destruct Hin as [Hin | Hin]; [discriminate Hin |]); contradiction.
  - settle.
    all: intros Hok; try discriminate Hok.
    all: split; [reflexivity |].
    all: intros accounts Hacc; histories.
    all: agree.
    all: split; reflexivity.
Qed.

(* ===================================================================== *)
(** ** The explorer link, Reset and Disconnect *)
(* ===================================================================== *)

(** C7. [explorerBase] is the Sepolia explorer when the observed chain id is
    11155111, the Mainnet explorer when it is 1, and the explorer of the
    selected target for any other observed value, none included. *)
Theorem explorerBase_resolution (s : SessionState) :
  chainIdDec (CHAINS sepolia) = 11155111%Z
  /\ chainIdDec (CHAINS mainnet) = 1%Z
  /\ (currentChainId s = Some (chainIdDec (CHAINS sepolia)) ->
      explorerBase s = blockExplorer (CHAINS sepolia))
  /\ (currentChainId s = Some (chainIdDec (CHAINS mainnet)) ->
      explorerBase s = blockExplorer (CHAINS mainnet))
  /\ (currentChainId s <> Some (chainIdDec (CHAINS sepolia)) ->
      currentChainId s <> Some (chainIdDec (CHAINS mainnet)) ->
      explorerBase s = blockExplorer (CHAINS (target s))).
Proof.
  unfold explorerBase. conjs; try reflexivity.
  - intros ->. rewrite Z.eqb_refl. reflexivity.
  - intros ->. reflexivity.
  - intros Hs Hm. destruct (currentChainId s) as [c |]; [| reflexivity].
    destruct (Z.eqb_spec c (chainIdDec (CHAINS sepolia))) as [-> | _];
      [contradiction Hs; reflexivity |].
    destruct (Z.eqb_spec c (chainIdDec (CHAINS mainnet))) as [-> | _];
      [contradiction Hm; reflexivity |].
    reflexivity.
Qed.

(** C8. Reset is four setter calls in one synchronous handler, with no
    request and no provider test between them: payload, status, transaction
    hash and contract address end up empty, while the connected account, the
    selected target and the observed chain id are left as they were. *)
Theorem reset_clears_form (w : world) (s : SessionState) (h : list request) :
  let r := run w reset s h in
  trace r =
    [ASet (setBytecode []); ASet (setStatus []); ASet (setTxHash []);
     ASet (setContractAddress [])]
  /\ completed r = Normal tt
  /\ bytecode (final_state r) = []
  /\ status (final_state r) = []
  /\ txHash (final_state r) = []
  /\ contractAddress (final_state r) = []
  /\ account (final_state r) = account s
  /\ target (final_state r) = target s
  /\ currentChainId (final_state r) = currentChainId s.
Proof. cbn. conjs; reflexivity. Qed.

(** C9 (as amended). Disconnect is two setter calls and nothing else: no
    request and no provider test. The account becomes none and the status
    becomes the notice "Déconnecté."; payload, transaction hash, contract
    address, observed chain id and target stay as they were. *)
Theorem disconnect_is_local (w : world) (s : SessionState) (h : list request) :
  let r := run w disconnect s h in
  trace r = [ASet (setAccount None); ASet (setStatus (js "Déconnecté."))]
  /\ requests (trace r) = []
  /\ completed r = Normal tt
  /\ account (final_state r) = None
  /\ status (final_state r) = js "Déconnecté."
  /\ bytecode (final_state r) = bytecode s
  /\ txHash (final_state r) = txHash s
  /\ contractAddress (final_state r) = contractAddress s
  /\ currentChainId (final_state r) = currentChainId s
  /\ target (final_state r) = target s.
Proof. cbn. conjs; reflexivity. Qed.

(** C9 (as stated) fails: after Disconnect in a connected session that has
    deployed, the status is not empty, and neither are the transaction hash
    and the contract address. *)
Lemma disconnect_does_not_empty_status :
  let r := run world_granting disconnect session_after_deploy [] in
  ~ (account (final_state r) = None
     /\ status (final_state r) = []
     /\ requests (trace r) = [])
  /\ status (final_state r) = js "Déconnecté."
  /\ txHash (final_state r) <> []
  /\ contractAddress (final_state r) <> [].
Proof.
  cbn. conjs.
  - intros [_ [H _]]. discriminate H.
  - reflexivity.
  - discriminate.
  - discriminate.
Qed.

(* ===================================================================== *)
(** ** The theorems at concrete sessions *)
(* ===================================================================== *)

(** With Mainnet selected and a granting wallet the deploy goes through
    [ensureNetwork "sepolia"] and submits after the switch to Sepolia; when
    the switch is refused nothing is submitted. *)
Lemma deployContract_forces_sepolia_witness :
  (exists rest,
      trace (run world_granting (deployContract session_mainnet) session_mainnet []) =
        [ASet (setStatus []); ASet (setTxHash []); ASet (setContractAddress []);
         ARead true]
        ++ trace (run world_granting (ensureNetwork sepolia)
                    (after_clearing session_mainnet) [])
        ++ rest)
  /\ js "0xaa36a7" = chainIdHex (CHAINS sepolia)
  /\ hd_error [wallet_switchEthereumChain (js "0xaa36a7"); getSigner]
     = Some (wallet_switchEthereumChain (chainIdHex (CHAINS sepolia)))
  /\ (forall tx,
         ~ In (sendTransaction tx)
             (requests (trace (run world_switch_refused
                                 (deployContract session_mainnet) session_mainnet [])))).
Proof.
  pose proof (deployContract_forces_sepolia world_granting session_mainnet [])
    as (_ & Hcalls & Hswitch & Hbefore & _).
  pose proof (deployContract_forces_sepolia world_switch_refused session_mainnet [])
    as (_ & _ & _ & _ & Hfail).
  conjs.
  - destruct Hcalls as [rest [Htrace _]]; [reflexivity | reflexivity |].
    exists rest. exact Htrace.
  - apply Hswitch. left. reflexivity.
  - apply (Hbefore {| TxRequest.data := js "0x60006000f3"; TxRequest.gasLimit := 70000 |}
             [wallet_switchEthereumChain (js "0xaa36a7"); getSigner]
             [wait (granted (sendTransaction
                               {| TxRequest.data := js "0x60006000f3";
                                  TxRequest.gasLimit := 70000 |}))]).
    reflexivity.
  - apply Hfail. reflexivity.
Defined.

(** A wallet that answers 4902 and then accepts the add makes
    [ensureNetwork] succeed with two requests; one that answers 4001 makes
    it fail with one. *)
Lemma ensureNetwork_unrecognized_chain_witness :
  (requests (trace (run world_unknown_chain (ensureNetwork mainnet) initial_state []))
   = [switch_request_of (CHAINS mainnet); add_request_of (CHAINS mainnet)]
   /\ completed (run world_unknown_chain (ensureNetwork mainnet) initial_state [])
      = Normal true)
  /\ (requests (trace (run world_switch_refused (ensureNetwork mainnet) initial_state []))
      = [switch_request_of (CHAINS mainnet)]
      /\ completed (run world_switch_refused (ensureNetwork mainnet) initial_state [])
         = Normal false).
Proof.
  split.
  - apply (ensureNetwork_unrecognized_chain world_unknown_chain initial_state []
             mainnet (provider_error 4902 "Unrecognized chain ID."));
      reflexivity.
  - apply (ensureNetwork_unrecognized_chain world_switch_refused initial_state []
             mainnet (provider_error 4001 "User rejected the request."));
      [reflexivity | reflexivity | discriminate].
Defined.

(** Connecting with a refused switch asks for no account; with a granting
    wallet the first account of the list is stored. *)
Lemma connectWallet_network_first_witness :
  ~ In eth_requestAccounts
      (requests (trace (run world_switch_refused (connectWallet session_mainnet)
                          session_mainnet [])))
  /\ account (final_state (run world_granting (connectWallet session_mainnet)
                             session_mainnet []))
     = Some (js "0x52908400098527886E0F7030069857D2E4169EE7").
Proof.
  split.
  - apply (connectWallet_network_first world_switch_refused session_mainnet []).
    reflexivity.
  - pose proof (connectWallet_network_first world_granting session_mainnet [])
      as (_ & Hok).
    destruct Hok as [_ Hacc]; [reflexivity |].
    apply (Hacc [js "0x52908400098527886E0F7030069857D2E4169EE7"]).
    reflexivity.
Defined.

(** The payload "  0x " trims to two code units: nothing is requested and
    the status asks for a valid bytecode. *)
Lemma deployContract_rejects_short_payload_witness :
  requests (trace (run world_granting (deployContract session_short_payload)
                     session_short_payload [])) = []
  /\ status (final_state (run world_granting (deployContract session_short_payload)
                            session_short_payload []))
     = js "Colle un creation bytecode valide (0x...), ou clique 'Remplir un bytecode de test'.".
Proof.
  pose proof (deployContract_rejects_short_payload world_granting
                session_short_payload []) as H.
  destruct H as (Hreq & _ & _ & _ & Hstatus & _); [reflexivity |].
  split; [exact Hreq | apply Hstatus; reflexivity].
Defined.

(** The payload "60006000f3" is submitted as "0x60006000f3". *)
Lemma deployContract_data_prefix_witness :
  TxRequest.data
    {| TxRequest.data := dataHex (js "60006000f3"); TxRequest.gasLimit := 70000 |}
  = js "0x60006000f3"
  /\ exists tx,
       In (sendTransaction tx)
          (requests (trace (run world_granting (deployContract session_mainnet)
                              session_mainnet []))).
Proof.
  pose proof (deployContract_data_prefix world_granting session_mainnet [])
    as (Hdata & Hsubmits).
  split.
  - apply (Hdata {| TxRequest.data := dataHex (js "60006000f3");
                     TxRequest.gasLimit := 70000 |}).
    + right. right. left. reflexivity.
    + reflexivity.
  - apply Hsubmits; reflexivity.
Defined.

(** A failed confirmation leaves the hash of the submitted transaction and
    reports the failure's message. *)
Lemma deployContract_confirmation_failure_witness :
  txHash (final_state (run world_confirmation_fails (deployContract session_mainnet)
                         session_mainnet []))
  = js "0x88df016429689c079f3b2f6ad39fa052532c56795b733da78a91ebe6a713944b"
  /\ status (final_state (run world_confirmation_fails (deployContract session_mainnet)
                            session_mainnet []))
     = js "Erreur: transaction execution reverted".
Proof.
  pose proof (deployContract_confirmation_failure world_confirmation_fails
                session_mainnet []
                (granted (sendTransaction
                            {| TxRequest.data := js "0x60006000f3";
                               TxRequest.gasLimit := 70000 |}))
                [wallet_switchEthereumChain (js "0xaa36a7"); getSigner;
                 sendTransaction {| TxRequest.data := js "0x60006000f3";
                                    TxRequest.gasLimit := 70000 |}]
                [] confirmation_error) as H.
  destruct H as (_ & Hhash & _ & Hstatus & _);
    [vm_compute; reflexivity | vm_compute; reflexivity |].
  split.
  - etransitivity; [exact Hhash | vm_compute; reflexivity].
  - etransitivity;
      [apply (Hstatus (js "transaction execution reverted"));
         [vm_compute; reflexivity | discriminate]
      | vm_compute; reflexivity].
Defined.

(** Without a wallet a deploy from a session that shows an earlier
    deployment erases its hash and address. *)
Lemma deployContract_clears_first_witness :
  txHash (final_state (run world_without_wallet (deployContract session_after_deploy)
                         session_after_deploy [])) = []
  /\ contractAddress (final_state (run world_without_wallet
                                     (deployContract session_after_deploy)
                                     session_after_deploy [])) = [].
Proof.
  pose proof (deployContract_clears_first world_without_wallet
                session_after_deploy []) as (_ & H).
  destruct H as (_ & Hhash & Haddr & _); [left; reflexivity |].
  split; assumption.
Defined.

(** Observed Mainnet with Sepolia selected links to the Mainnet explorer;
    observed Sepolia to the Sepolia one; an unknown chain to the target's. *)
Lemma explorerBase_resolution_witness :
  explorerBase session_after_deploy = blockExplorer (CHAINS sepolia)
  /\ explorerBase session_mainnet = blockExplorer (CHAINS mainnet)
  /\ explorerBase (apply_update (setCurrentChainId (Some 137%Z)) session_mainnet)
     = blockExplorer (CHAINS mainnet).
Proof.
  pose proof (explorerBase_resolution session_after_deploy)
    as (_ & _ & Hsepolia & _ & _).
  pose proof (explorerBase_resolution session_mainnet)
    as (_ & _ & _ & Hmainnet & _).
  pose proof (explorerBase_resolution
                (apply_update (setCurrentChainId (Some 137%Z)) session_mainnet))
    as (_ & _ & _ & _ & Hother).
  conjs.
  - apply Hsepolia. reflexivity.
  - apply Hmainnet. reflexivity.
  - apply Hother; discriminate.
Defined.

(** Closes an equation between two copies of one term, without computing
    either side. *)
Ltac same := match goal with |- ?a = ?b => constr_eq a b; reflexivity end.

(** Finds, in a disjunction of equations, the one that holds as written. *)
Ltac pick := repeat first [same | left; same | right].

(* ===================================================================== *)
(** ** Further properties of [ensureNetwork] *)
(* ===================================================================== *)

(** X1. Without a wallet provider [ensureNetwork] makes no request: it
    tests for the provider, sets the status "MetaMask non détecté." and
    returns [false]. *)
Theorem ensureNetwork_without_provider
    (w : world) (s : SessionState) (h : list request) (key : chain_key) :
  let r := run w (ensureNetwork key) s h in
  ethereum w = false ->
  trace r = [ARead false; ASet (setStatus (js "MetaMask non détecté."))]
  /\ requests (trace r) = []
  /\ completed r = Normal false
  /\ status (final_state r) = js "MetaMask non détecté.".
Proof.
  intros r Heth. subst r. unfold ensureNetwork. settle; try discriminate.
  conjs; reflexivity.
Qed.

(** X2. With a provider, when the wallet grants the switch, the switch to
    the profile's chain id hex is the only request, the result is [true] and
    the status names the network: "Réseau basculé sur <name>.". *)
Theorem ensureNetwork_switch_granted
    (w : world) (s : SessionState) (h : list request) (key : chain_key) :
  let cfg := CHAINS key in
  let r := run w (ensureNetwork key) s h in
  ethereum w = true ->
  is_resolved (respond w h (wallet_switchEthereumChain (chainIdHex cfg))) = true ->
  requests (trace r) = [wallet_switchEthereumChain (chainIdHex cfg)]
  /\ completed r = Normal true
  /\ status (final_state r) = js "Réseau basculé sur " ++ name cfg ++ js ".".
Proof.
  intros cfg r Heth Hsw. subst r cfg. unfold ensureNetwork.
  settle; try discriminate.
  conjs; reflexivity.
Qed.

(** X3. Whatever the wallet answers, [ensureNetwork] asks it for nothing
    but the switch to the profile's chain id and the add of that profile;
    with a provider the switch always comes first; and of the session state
    only the status changes. *)
Theorem ensureNetwork_requests_and_frame
    (w : world) (s : SessionState) (h : list request) (key : chain_key) :
  let cfg := CHAINS key in
  let r := run w (ensureNetwork key) s h in
  (forall q, In q (requests (trace r)) ->
             q = wallet_switchEthereumChain (chainIdHex cfg)
             \/ q = wallet_addEthereumChain
                      {| AddParams.chainId := chainIdHex cfg;
                         AddParams.chainName := name cfg;
                         AddParams.nativeCurrency := currency cfg;
                         AddParams.rpcUrls := rpcUrls cfg;
                         AddParams.blockExplorerUrls := [blockExplorer cfg] |})
  /\ (ethereum w = true ->
      hd_error (requests (trace r))
      = Some (wallet_switchEthereumChain (chainIdHex cfg)))
  /\ account (final_state r) = account s
  /\ bytecode (final_state r) = bytecode s
  /\ txHash (final_state r) = txHash s
  /\ contractAddress (final_state r) = contractAddress s
  /\ currentChainId (final_state r) = currentChainId s
  /\ target (final_state r) = target s.
Proof.
  intros cfg r. subst r cfg. unfold ensureNetwork. settle.
  all: split; [intros q Hin; cbn in Hin; intuition |].
  all: split; [intros Heth; first [discriminate Heth | reflexivity] |].
  all: conjs; reflexivity.
Qed.

(** X4. The status [ensureNetwork] leaves always tells its result: after
    [true] it is one of the two notices naming the network, after [false]
    one of the three refusals; the earlier status never survives. *)
Theorem ensureNetwork_status_tells_result
    (w : world) (s : SessionState) (h : list request) (key : chain_key) :
  let cfg := CHAINS key in
  let r := run w (ensureNetwork key) s h in
  (completed r = Normal true ->
   status (final_state r) = js "Réseau basculé sur " ++ name cfg ++ js "."
   \/ status (final_state r)
      = js "Réseau " ++ name cfg ++ js " ajouté et sélectionné.")
  /\ (completed r = Normal false ->
      status (final_state r) = js "MetaMask non détecté."
      \/ status (final_state r) = js "Changement de réseau refusé dans MetaMask."
      \/ status (final_state r) = js "Ajout de réseau refusé dans MetaMask.").
Proof.
  intros cfg r. subst r cfg. unfold ensureNetwork. settle.
  all: split; intros Hres; try discriminate Hres; pick.
Qed.

(** X5. No rejection of the wallet or of the signer escapes a handler:
    [ensureNetwork] always returns a boolean, [connectWallet] and
    [deployContract] always return. *)
Theorem handlers_never_throw
    (w : world) (s : SessionState) (h : list request) (key : chain_key) :
  (exists b, completed (run w (ensureNetwork key) s h) = Normal b)
  /\ completed (run w (connectWallet s) s h) = Normal tt
  /\ completed (run w (deployContract s) s h) = Normal tt.
Proof.
  conjs.
  - apply ensureNetwork_returns.
  - apply connectWallet_returns.
  - apply deployContract_returns.
Qed.

(* ===================================================================== *)
(** ** Further properties of [connectWallet] *)
(* ===================================================================== *)

(** X6. Without a wallet provider [connectWallet] makes no request, leaves
    the account as it was and asks to install MetaMask. *)
Theorem connectWallet_without_provider
    (w : world) (s : SessionState) (h : list request) :
  let r := run w (connectWallet s) s h in
  ethereum w = false ->
  requests (trace r) = []
  /\ account (final_state r) = account s
  /\ status (final_state r)
     = js "MetaMask n'est pas détecté. Installe-le d'abord.".
Proof.
  intros r Heth. subst r. unfold connectWallet. settle; try discriminate.
  conjs; reflexivity.
Qed.

(** X7. When the network step succeeds and the wallet rejects the account
    request, [connectWallet] keeps the account and the wallet button as they
    were and reports "Erreur connexion: " followed by the failure's text. *)
Theorem connectWallet_accounts_rejected
    (w : world) (s : SessionState) (h : list request) (err : js_error) :
  let r := run w (connectWallet s) s h in
  let e := run w (ensureNetwork (target s)) s h in
  completed e = Normal true ->
  respond w (h ++ requests (trace e)) eth_requestAccounts = Rejected err ->
  account (final_state r) = account s
  /\ walletButton (final_state r) = walletButton s
  /\ status (final_state r) = js "Erreur connexion: " ++ error_text err
  /\ completed r = Normal tt.
Proof.
  intros r e. subst r e. unfold connectWallet, ensureNetwork. settle.
  all: intros Hok Hacc; try discriminate Hok.
  all: histories; agree.
  all: conjs; reflexivity.
Qed.

(** X8. When the wallet answers the account request with an empty list (or
    with an empty first address), [connectWallet] reports "Wallet connecté."
    although no account is connected: the wallet line still reads "Aucun
    wallet" and the button rendered is still Connect. *)
Theorem connectWallet_empty_accounts
    (w : world) (s : SessionState) (h : list request) (accounts : list jsstring) :
  let r := run w (connectWallet s) s h in
  let e := run w (ensureNetwork (target s)) s h in
  completed e = Normal true ->
  respond w (h ++ requests (trace e)) eth_requestAccounts = Resolved accounts ->
  accounts = [] \/ (exists others, accounts = [] :: others) ->
  status (final_state r) = js "Wallet connecté."
  /\ walletLabel (final_state r) = js "Aucun wallet"
  /\ walletButton (final_state r) = ConnectButton.
Proof.
  intros r e. subst r e. unfold connectWallet, ensureNetwork. settle.
  all: intros Hok Hacc Hempty; try discriminate Hok.
  all: histories; agree.
  all: destruct Hempty as [-> | [others ->]]; conjs; reflexivity.
Qed.

(** X9. When the account request resolves with a non-empty first address,
    that address is connected: the wallet line shows its shortened form and
    the button rendered is Disconnect. *)
Theorem connectWallet_shows_account
    (w : world) (s : SessionState) (h : list request)
    (first : jsstring) (others : list jsstring) :
  let r := run w (connectWallet s) s h in
  let e := run w (ensureNetwork (target s)) s h in
  completed e = Normal true ->
  respond w (h ++ requests (trace e)) eth_requestAccounts
  = Resolved (first :: others) ->
  first <> [] ->
  account (final_state r) = Some first
  /\ walletLabel (final_state r) = shorten first
  /\ walletButton (final_state r) = DisconnectButton.
Proof.
  intros r e. subst r e. unfold connectWallet, ensureNetwork. settle.
  all: intros Hok Hacc Hne; try discriminate Hok.
  all: histories; agree.
  all: unfold walletLabel, walletButton; cbn.
  all: destruct first; [contradiction | conjs; reflexivity].
Qed.

(** X10. [connectWallet] only ever writes the account and the status, asks
    for no signer and submits nothing, and changes the account only after an
    [eth_requestAccounts] request. *)
Theorem connectWallet_frame
    (w : world) (s : SessionState) (h : list request) :
  let r := run w (connectWallet s) s h in
  bytecode (final_state r) = bytecode s
  /\ txHash (final_state r) = txHash s
  /\ contractAddress (final_state r) = contractAddress s
  /\ currentChainId (final_state r) = currentChainId s
  /\ target (final_state r) = target s
  /\ ~ In getSigner (requests (trace r))
  /\ (forall q, In q (requests (trace r)) ->
                is_sendTransaction q = false /\ is_wait q = false)
  /\ (account (final_state r) <> account s ->
      In eth_requestAccounts (requests (trace r))).
Proof.
  intros r. subst r. unfold connectWallet, ensureNetwork. settle.
  all: conjs; try reflexivity.
  all: try (intros Hin; cbn in Hin; intuition discriminate).
  all: try (intros q Hin; cbn in Hin; intuition (subst; reflexivity)).
  all: try (intros Hne; cbn; first [contradiction Hne; reflexivity | intuition]).
Qed.

(* ===================================================================== *)
(** ** Further properties of [deployContract] *)
(* ===================================================================== *)

(** As [locate], also for an element that carries no argument. *)
Ltac locate0 :=
  repeat
    match goal with
    | H : [] = _ ++ _ :: _ |- _ => destruct (split_nil_inv _ _ _ _ H)
    | H : _ :: _ = _ ++ _ :: _ |- _ =>
        apply split_cons_inv in H;
        destruct H as [[? [H ?]] | [? [? H]]];
        [ first [discriminate H | clear H] | ]
    end.

(** X11. When the confirmation wait resolves with a receipt that carries a
    non-empty contract address, the deploy records the hash and that
    address, reports "Confirmé ✅ Contrat déployé à <address>", and the
    address link rendered is [<explorerBase>/address/<address>]. *)
Theorem deployContract_confirmed_with_address
    (w : world) (s : SessionState) (h : list request)
    (tx : tx_response) (before after : list request) (addr : jsstring) :
  let r := run w (deployContract s) s h in
  requests (trace r) = before ++ wait tx :: after ->
  respond w (h ++ before) (wait tx)
  = Resolved (Some {| receipt_address := Some addr |}) ->
  addr <> [] ->
  txHash (final_state r) = hash tx
  /\ contractAddress (final_state r) = addr
  /\ status (final_state r) = js "Confirmé ✅ Contrat déployé à " ++ addr
  /\ addressLink (final_state r)
     = Some (explorerBase s ++ js "/address/" ++ addr).
Proof.
  intros r. subst r. unfold deployContract, ensureNetwork. settle.
  all: intros Hsplit Hwait Hne; locate; subst; histories; agree.
  all: destruct addr as [| c addr]; [contradiction |].
  all: conjs; reflexivity.
Qed.

(** X12. When the confirmation wait resolves with no receipt, or with a
    receipt whose contract address is null or empty, the deploy keeps the
    hash, records no address, renders no address link and reports the
    distinct notice that the transaction is confirmed without a contract
    address; it is not reported as an error. *)
Theorem deployContract_confirmed_without_address
    (w : world) (s : SessionState) (h : list request)
    (tx : tx_response) (before after : list request)
    (receipt : option tx_receipt) :
  let r := run w (deployContract s) s h in
  requests (trace r) = before ++ wait tx :: after ->
  respond w (h ++ before) (wait tx) = Resolved receipt ->
  receipt = None
  \/ receipt = Some {| receipt_address := None |}
  \/ receipt = Some {| receipt_address := Some [] |} ->
  txHash (final_state r) = hash tx
  /\ contractAddress (final_state r) = []
  /\ addressLink (final_state r) = None
  /\ status (final_state r)
     = js "Confirmé, mais pas d'adresse de contrat (bytecode probablement non-créateur).".
Proof.
  intros r. subst r. unfold deployContract, ensureNetwork. settle.
  all: intros Hsplit Hwait Hnone; locate; subst; histories; agree.
  all: destruct Hnone as [-> | [-> | ->]]; conjs; reflexivity.
Qed.

(** X13. When the signature request is rejected, nothing is waited for: the
    submission is the last request, no hash and no address are recorded, no
    transaction link is rendered, and the status is "Erreur: " followed by
    the failure's text. *)
Theorem deployContract_signature_refused
    (w : world) (s : SessionState) (h : list request)
    (txr : TxRequest.fields) (before after : list request) (err : js_error) :
  let r := run w (deployContract s) s h in
  requests (trace r) = before ++ sendTransaction txr :: after ->
  respond w (h ++ before) (sendTransaction txr) = Rejected err ->
  after = []
  /\ txHash (final_state r) = []
  /\ contractAddress (final_state r) = []
  /\ txLink (final_state r) = None
  /\ status (final_state r) = js "Erreur: " ++ error_text err.
Proof.
  intros r. subst r. unfold deployContract, ensureNetwork. settle.
  all: intros Hsplit Hsend; locate; subst; histories; agree.
  all: conjs; reflexivity.
Qed.

(** X14. When the signer cannot be obtained, no transaction is submitted:
    the signer request is the last one, and the status is "Erreur: "
    followed by the failure's text. *)
Theorem deployContract_signer_refused
    (w : world) (s : SessionState) (h : list request)
    (before after : list request) (err : js_error) :
  let r := run w (deployContract s) s h in
  requests (trace r) = before ++ getSigner :: after ->
  respond w (h ++ before) getSigner = Rejected err ->
  after = []
  /\ txHash (final_state r) = []
  /\ status (final_state r) = js "Erreur: " ++ error_text err.
Proof.
  intros r. subst r. unfold deployContract, ensureNetwork. settle.
  all: intros Hsplit Hsigner; locate0; subst; histories; agree.
  all: conjs; reflexivity.
Qed.

(** X15. A deploy never writes the account, the payload, the selected
    target or the observed chain id; so the wallet line, the wallet button
    and the explorer that links point to are what they were before it. *)
Theorem deployContract_frame
    (w : world) (s : SessionState) (h : list request) :
  let r := run w (deployContract s) s h in
  account (final_state r) = account s
  /\ bytecode (final_state r) = bytecode s
  /\ target (final_state r) = target s
  /\ currentChainId (final_state r) = currentChainId s
  /\ explorerBase (final_state r) = explorerBase s
  /\ walletLabel (final_state r) = walletLabel s
  /\ walletButton (final_state r) = walletButton s.
Proof.
  intros r. subst r. unfold deployContract, ensureNetwork. settle.
  all: conjs; reflexivity.
Qed.

(** X16. A deploy submits at most one transaction and waits at most once;
    a wait is always its last request, made on the handle that the
    submission just before it resolved to. *)
Theorem deployContract_single_transaction
    (w : world) (s : SessionState) (h : list request) :
  let r := run w (deployContract s) s h in
  List.length (filter is_sendTransaction (requests (trace r))) <= 1
  /\ List.length (filter is_wait (requests (trace r))) <= 1
  /\ (forall tx before after,
         requests (trace r) = before ++ wait tx :: after ->
         after = []
         /\ exists txr pre,
              before = pre ++ [sendTransaction txr]
              /\ respond w (h ++ pre) (sendTransaction txr) = Resolved tx).
Proof.
  intros r. subst r. unfold deployContract, ensureNetwork. settle.
  all: split; [cbn; lia |].
  all: split; [cbn; lia |].
  all: intros tx before after Hsplit; locate; subst; histories.
  all: split; [reflexivity |].
  all: eexists; eexists; split; [| eassumption]; reflexivity.
Qed.

(** X17. A contract address is recorded only by a confirmed deploy: when
    the state a deploy leaves has a non-empty contract address, the deploy
    waited on a transaction whose hash is the recorded hash, and the status
    is the confirmation notice carrying that address. *)
Theorem deployContract_address_needs_confirmation
    (w : world) (s : SessionState) (h : list request) :
  let r := run w (deployContract s) s h in
  contractAddress (final_state r) <> [] ->
  exists tx,
    In (wait tx) (requests (trace r))
    /\ txHash (final_state r) = hash tx
    /\ status (final_state r)
       = js "Confirmé ✅ Contrat déployé à " ++ contractAddress (final_state r).
Proof.
  intros r. subst r. unfold deployContract, ensureNetwork. settle.
  all: intros Haddr; try (contradiction Haddr; reflexivity).
  all: match goal with
       | |- context [receipt_addr ?v] => destruct (receipt_addr v) eqn:?
       end; [contradiction Haddr; reflexivity |].
  all: eexists; conjs; [| reflexivity | reflexivity].
  all: cbn; auto 6.
Qed.


(** X19. After "Remplir un bytecode de test" (which makes no request and
    sets the payload to "0x60006000f3"), a deploy is not stopped by the
    payload check: with a provider its first request is the switch to
    Sepolia, and any transaction it submits carries exactly "0x60006000f3"
    as data, with no second prefix, and the gas limit 70000. *)
Theorem fillTestBytecode_then_deploy
    (w w' : world) (s : SessionState) (h h' : list request) :
  let f := run w fillTestBytecode s h in
  let r := run w' (deployContract (final_state f)) (final_state f) h' in
  requests (trace f) = []
  /\ bytecode (final_state f) = js "0x60006000f3"
  /\ (ethereum w' = true ->
      hd_error (requests (trace r))
      = Some (wallet_switchEthereumChain (chainIdHex (CHAINS sepolia))))
  /\ (forall tx, In (sendTransaction tx) (requests (trace r)) ->
                 tx = {| TxRequest.data := js "0x60006000f3";
                         TxRequest.gasLimit := 70000 |}).
Proof.
  intros f r. subst r f.
  assert (Hpay : payload_rejected TEST_BYTECODE = false) by (vm_compute; reflexivity).
  assert (Hdata : dataHex TEST_BYTECODE = js "0x60006000f3") by (vm_compute; reflexivity).
  unfold fillTestBytecode, deployContract, ensureNetwork.
  cbn. rewrite Hpay, Hdata. settle.
  all: split; [reflexivity |].
  all: split; [reflexivity |].
  all: split; [intros Heth; first [discriminate Heth | reflexivity] |].
  all: intros tx Hin; cbn in Hin.
  all: repeat (destruct Hin as [Hin | Hin];
               [first [discriminate Hin | injection Hin as <-; reflexivity] |]).
  all: contradiction.
Qed.

(* ===================================================================== *)
(** ** [shorten] *)
(* ===================================================================== *)

Lemma ellipsis_unit : js "…" = [8230%N].
Proof. reflexivity. Qed.

Lemma truthy_nonempty (a : jsstring) : a <> [] -> truthy a = true.
Proof. destruct a; [contradiction | reflexivity]. Qed.

(** X20. An address of at least ten code units is shown as its first six
    code units, an ellipsis and its last four: eleven code units in all,
    taken from the two ends of the address without overlap. *)
Theorem shorten_long (addr : jsstring) :
  10 <= List.length addr ->
  exists first6 middle last4,
    addr = first6 ++ middle ++ last4
    /\ List.length first6 = 6
    /\ List.length last4 = 4
    /\ shorten addr = first6 ++ js "…" ++ last4
    /\ List.length (shorten addr) = 11.
Proof.
  intros Hlen.
  exists (firstn 6 addr), (firstn (List.length addr - 10) (skipn 6 addr)),
         (skipn (List.length addr - 4) addr).
  assert (Hne : addr <> []) by (intros ->; cbn in Hlen; lia).
  unfold shorten. rewrite (truthy_nonempty addr Hne), ellipsis_unit.
  assert (H6 : List.length (firstn 6 addr) = 6) by (rewrite length_firstn; lia).
  assert (H4 : List.length (skipn (List.length addr - 4) addr) = 4)
    by (rewrite length_skipn; lia).
  conjs; auto.
  - replace (List.length addr - 4) with ((List.length addr - 10) + 6) by lia.
    rewrite <- skipn_skipn.
    rewrite (firstn_skipn (List.length addr - 10) (skipn 6 addr)).
    symmetry. apply firstn_skipn.
  - rewrite !length_app, H6, H4. reflexivity.
Qed.

(** X21. For a non-empty address of [n] code units the shortened form has
    [min 6 n + 1 + min 4 n] code units, so it is shorter than the address
    only when [n] exceeds 11; an address of at most four code units is shown
    whole on both sides of the ellipsis. The empty address is shown as the
    empty string. *)
Theorem shorten_length (addr : jsstring) :
  shorten [] = []
  /\ (addr <> [] ->
      List.length (shorten addr)
      = Nat.min 6 (List.length addr) + 1 + Nat.min 4 (List.length addr)
      /\ (List.length (shorten addr) < List.length addr
          <-> 11 < List.length addr)
      /\ (List.length addr <= 4 -> shorten addr = addr ++ js "…" ++ addr)).
Proof.
  split; [reflexivity |]. intros Hne.
  assert (Hlen : List.length (shorten addr)
                 = Nat.min 6 (List.length addr) + 1 + Nat.min 4 (List.length addr)).
  { unfold shorten. rewrite (truthy_nonempty addr Hne), ellipsis_unit.
    rewrite !length_app, length_firstn, length_skipn. cbn [List.length]. lia. }
  conjs.
  - exact Hlen.
  - rewrite Hlen. lia.
  - intros Hshort. unfold shorten. rewrite (truthy_nonempty addr Hne).
    rewrite firstn_all2 by lia.
    replace (List.length addr - 4) with 0 by lia. reflexivity.
Qed.

(* ===================================================================== *)
(** ** The chain listener, the network pill and the target selector *)
(* ===================================================================== *)

(** The hex and the decimal chain id of each profile are one number. *)
Lemma chain_ids_agree (key : chain_key) :
  parseInt16 (chainIdHex (CHAINS key)) = Some (chainIdDec (CHAINS key)).
Proof. destruct key; reflexivity. Qed.

(** X22. When the wallet reports the chain id hex of one of the two
    profiles, the listener makes no request, writes only the observed chain
    id, and from then on the pill names that network and links point to its
    explorer, whatever target is selected. *)
Theorem handler_known_network
    (Number_toString : Z -> jsstring)
    (w : world) (s : SessionState) (h : list request) (key : chain_key) :
  let r := run w (handler (chainIdHex (CHAINS key))) s h in
  trace r = [ASet (setCurrentChainId (Some (chainIdDec (CHAINS key))))]
  /\ explorerBase (final_state r) = blockExplorer (CHAINS key)
  /\ networkLabel Number_toString (final_state r)
     = match key with sepolia => js "Sepolia" | mainnet => js "Mainnet" end
  /\ target (final_state r) = target s
  /\ status (final_state r) = status s
  /\ account (final_state r) = account s.
Proof.
  intros r. subst r. unfold handler. rewrite chain_ids_agree.
  destruct key; cbn; conjs; reflexivity.
Qed.

(** X23. When the reported id has no hexadecimal digit to read ([parseInt]
    gives [NaN]) or reads as zero, the pill shows "inconnu"; when it reads
    as another number than the two known ids, the pill shows "ChainId "
    followed by that number; in both cases links point to the explorer of
    the selected target. *)
Theorem handler_other_chain
    (Number_toString : Z -> jsstring)
    (w : world) (s : SessionState) (h : list request) (hex : jsstring) :
  let r := run w (handler hex) s h in
  (parseInt16 hex = None \/ parseInt16 hex = Some 0%Z ->
   networkLabel Number_toString (final_state r) = js "inconnu"
   /\ explorerBase (final_state r) = blockExplorer (CHAINS (target s)))
  /\ (forall c, parseInt16 hex = Some c ->
                c <> 0%Z -> c <> 1%Z -> c <> 11155111%Z ->
                networkLabel Number_toString (final_state r)
                = js "ChainId " ++ Number_toString c
                /\ explorerBase (final_state r)
                   = blockExplorer (CHAINS (target s))).
Proof.
  intros r. subst r. unfold handler. cbn. split.
  - intros [-> | ->]; split; reflexivity.
  - intros c -> H0 H1 H2. unfold networkLabel, explorerBase. cbn.
    change (chainIdDec (CHAINS sepolia)) with 11155111%Z.
    change (chainIdDec (CHAINS mainnet)) with 1%Z.
    destruct (Z.eqb_spec c 11155111); [contradiction |].
    destruct (Z.eqb_spec c 1); [contradiction |].
    destruct (Z.eqb_spec c 0); [contradiction |].
    split; reflexivity.
Qed.

(** X24. The pill and the links always agree on the observed network: the
    pill reads "Sepolia" exactly when the observed chain id is 11155111 and
    "Mainnet" exactly when it is 1, links then point to that network's
    explorer, and whenever the pill reads anything else they point to the
    explorer of the selected target. *)
Theorem networkLabel_matches_explorer
    (Number_toString : Z -> jsstring) (s : SessionState) :
  (networkLabel Number_toString s = js "Sepolia"
   <-> currentChainId s = Some 11155111%Z)
  /\ (networkLabel Number_toString s = js "Mainnet"
      <-> currentChainId s = Some 1%Z)
  /\ (networkLabel Number_toString s = js "Sepolia" ->
      explorerBase s = blockExplorer (CHAINS sepolia))
  /\ (networkLabel Number_toString s = js "Mainnet" ->
      explorerBase s = blockExplorer (CHAINS mainnet))
  /\ (networkLabel Number_toString s <> js "Sepolia" ->
      networkLabel Number_toString s <> js "Mainnet" ->
      explorerBase s = blockExplorer (CHAINS (target s))).
Proof.
  unfold networkLabel, explorerBase.
  change (chainIdDec (CHAINS sepolia)) with 11155111%Z.
  change (chainIdDec (CHAINS mainnet)) with 1%Z.
  destruct (currentChainId s) as [c |].
  - destruct (Z.eqb_spec c 11155111) as [-> | Hs].
    + cbn. conjs; try reflexivity; try (split; intros H; [reflexivity | reflexivity]).
      * split; intros H; discriminate H.
      * intros H; discriminate H.
      * intros H; contradiction H; reflexivity.
    + destruct (Z.eqb_spec c 1) as [-> | Hm].
      * conjs; try reflexivity.
        -- split; intros H; discriminate H.
        -- split; reflexivity.
        -- intros H; discriminate H.
        -- intros _ H; contradiction H; reflexivity.
      * destruct (c =? 0)%Z.
        -- conjs; try reflexivity; try (intros H; discriminate H).
           ++ split; intros H; [discriminate H | congruence].
           ++ split; intros H; [discriminate H | congruence].
        -- conjs; try reflexivity; try (intros H; discriminate H).
           ++ split; intros H; [discriminate H | congruence].
           ++ split; intros H; [discriminate H | congruence].
  - conjs; try reflexivity; try (intros H; discriminate H).
    + split; intros H; discriminate H.
    + split; intros H; discriminate H.
Qed.

(** X25. Selecting a target makes no request (it does not switch the
    wallet). It changes where links point only while the wallet is not
    observed on one of the two known networks. The next Connect then starts,
    with a provider, by the switch to the selected network's chain id. *)
Theorem selectTarget_switches_nothing
    (w w' : world) (s : SessionState) (h h' : list request) (key : chain_key) :
  let r := run w (selectTarget key) s h in
  let c := run w' (connectWallet (final_state r)) (final_state r) h' in
  trace r = [ASet (setTarget key)]
  /\ (currentChainId s = Some 11155111%Z \/ currentChainId s = Some 1%Z ->
      explorerBase (final_state r) = explorerBase s)
  /\ (currentChainId s <> Some 11155111%Z -> currentChainId s <> Some 1%Z ->
      explorerBase (final_state r) = blockExplorer (CHAINS key))
  /\ (ethereum w' = true ->
      hd_error (requests (trace c))
      = Some (wallet_switchEthereumChain (chainIdHex (CHAINS key)))).
Proof.
  intros r c. subst c r. unfold selectTarget. cbn [run set emit final_state trace].
  split; [reflexivity |].
  split; [| split].
  - unfold explorerBase. cbn.
    change (chainIdDec (CHAINS sepolia)) with 11155111%Z.
    change (chainIdDec (CHAINS mainnet)) with 1%Z.
    intros [H | H]; rewrite H; cbn; same.
  - intros Hs Hm. unfold explorerBase. cbn.
    change (chainIdDec (CHAINS sepolia)) with 11155111%Z.
    change (chainIdDec (CHAINS mainnet)) with 1%Z.
    destruct (currentChainId s) as [c |]; [| reflexivity].
    destruct (Z.eqb_spec c 11155111) as [-> | _]; [contradiction Hs; reflexivity |].
    destruct (Z.eqb_spec c 1) as [-> | _]; [contradiction Hm; reflexivity |].
    reflexivity.
  - unfold connectWallet, ensureNetwork. settle.
    all: intros Heth; first [discriminate Heth | reflexivity].
Qed.

(** X26. The mount effect never throws and never writes anything but the
    observed chain id: without a provider, or when its chain id query is
    rejected, the session is left exactly as it was, with no status set;
    with a provider and an answer, the observed chain id becomes the parsed
    answer. *)
Theorem observeChain_is_silent
    (w : world) (s : SessionState) (h : list request) (reply : outcome jsstring) :
  let r := run w (observeChain reply) s h in
  completed r = Normal tt
  /\ status (final_state r) = status s
  /\ account (final_state r) = account s
  /\ target (final_state r) = target s
  /\ (ethereum w = false \/ is_resolved reply = false -> final_state r = s)
  /\ (ethereum w = true ->
      forall hex, reply = Resolved hex ->
                  currentChainId (final_state r) = parseInt16 hex).
Proof.
  intros r. subst r. unfold observeChain, handler.
  cbn. destruct (ethereum w); cbn.
  - destruct reply as [hex | err]; cbn; conjs; try reflexivity.
    + intros [H | H]; discriminate H.
    + intros _ hex' H. injection H as ->. reflexivity.
    + intros _ hex' H. discriminate H.
  - conjs; try reflexivity. intros H. discriminate H.
Qed.

(** X27. What the page shows after Reset and after Disconnect. Reset
    removes both explorer links and shows the placeholder status, and keeps
    the wallet line and button. Disconnect shows "Aucun wallet" with the
    Connect button and the status "Déconnecté.", and keeps on screen the
    links of an earlier deployment. *)
Theorem view_after_reset_and_disconnect
    (w : world) (s : SessionState) (h : list request) :
  let r := run w reset s h in
  let d := run w disconnect s h in
  (txLink (final_state r) = None
   /\ addressLink (final_state r) = None
   /\ statusText (final_state r) = js "—"
   /\ walletLabel (final_state r) = walletLabel s
   /\ walletButton (final_state r) = walletButton s)
  /\ (walletLabel (final_state d) = js "Aucun wallet"
      /\ walletButton (final_state d) = ConnectButton
      /\ statusText (final_state d) = js "Déconnecté."
      /\ txLink (final_state d) = txLink s
      /\ addressLink (final_state d) = addressLink s).
Proof. cbn. conjs; reflexivity. Qed.

(** X28. The payload check looks at the trimmed payload and the data is
    built from the payload as typed: a payload is accepted exactly when its
    trimmed length is at least 4 (the emptiness test adds nothing), and when
    an accepted payload starts with a white space character, every
    transaction submitted carries "0x" followed by the whole payload, white
    space and any later "0x" included. *)
Theorem deployContract_untrimmed_payload
    (w : world) (s : SessionState) (h : list request) :
  let r := run w (deployContract s) s h in
  (payload_rejected (bytecode s) = false
   <-> 4 <= List.length (trim (bytecode s)))
  /\ (forall c rest tx,
         bytecode s = c :: rest ->
         is_js_whitespace c = true ->
         In (sendTransaction tx) (requests (trace r)) ->
         TxRequest.data tx = js "0x" ++ c :: rest).
Proof.
  intros r. split.
  - unfold payload_rejected. rewrite orb_false_iff, negb_false_iff, Z.ltb_ge.
    split.
    + intros [_ H]. lia.
    + intros H. split; [| lia].
      destruct (bytecode s); [cbn in H; lia | reflexivity].
  - intros c rest tx Hb Hws Hin.
    assert (Hdata : TxRequest.data tx = dataHex (bytecode s)).
    { revert Hin. subst r. unfold deployContract, ensureNetwork. settle.
      all: intros Hin.
      all: repeat (destruct Hin as [Hin | Hin];
                   [first [discriminate Hin | injection Hin as <-; reflexivity] |]).
      all: contradiction. }
    rewrite Hdata, Hb. unfold dataHex.
    destruct (startsWith (c :: rest) (js "0x")) eqn:Hstart; [| reflexivity].
    apply startsWith_spec in Hstart. destruct Hstart as [rest' Hrest].
    injection Hrest as -> _. discriminate Hws.
Qed.

(* ===================================================================== *)
(** ** The further properties at concrete sessions *)
(* ===================================================================== *)

Lemma ensureNetwork_without_provider_witness :
  requests (trace (run world_without_wallet (ensureNetwork mainnet) initial_state []))
  = [].
Proof.
  destruct (ensureNetwork_without_provider world_without_wallet initial_state []
              mainnet) as (_ & H & _); [reflexivity |].
  exact H.
Defined.

Lemma ensureNetwork_switch_granted_witness :
  completed (run world_granting (ensureNetwork mainnet) initial_state [])
  = Normal true.
Proof.
  destruct (ensureNetwork_switch_granted world_granting initial_state [] mainnet)
    as (_ & H & _); [reflexivity | reflexivity |].
  exact H.
Defined.

Lemma ensureNetwork_requests_and_frame_witness :
  hd_error (requests (trace (run world_unknown_chain (ensureNetwork sepolia)
                               initial_state [])))
  = Some (wallet_switchEthereumChain (chainIdHex (CHAINS sepolia)))
  /\ (add_request_of (CHAINS sepolia)
      = wallet_switchEthereumChain (chainIdHex (CHAINS sepolia))
      \/ add_request_of (CHAINS sepolia)
         = wallet_addEthereumChain
             {| AddParams.chainId := chainIdHex (CHAINS sepolia);
                AddParams.chainName := name (CHAINS sepolia);
                AddParams.nativeCurrency := currency (CHAINS sepolia);
                AddParams.rpcUrls := rpcUrls (CHAINS sepolia);
                AddParams.blockExplorerUrls := [blockExplorer (CHAINS sepolia)] |}).
Proof.
  destruct (ensureNetwork_requests_and_frame world_unknown_chain initial_state []
              sepolia) as (Hreq & Hfirst & _).
  split.
  - apply Hfirst. reflexivity.
  - apply (Hreq (add_request_of (CHAINS sepolia))). right. left. reflexivity.
Defined.

Lemma ensureNetwork_status_tells_result_witness :
  (status (final_state (run world_granting (ensureNetwork mainnet) initial_state []))
   = js "Réseau basculé sur " ++ name (CHAINS mainnet) ++ js "."
   \/ status (final_state (run world_granting (ensureNetwork mainnet) initial_state []))
      = js "Réseau " ++ name (CHAINS mainnet) ++ js " ajouté et sélectionné.")
  /\ (status (final_state (run world_switch_refused (ensureNetwork mainnet)
                             initial_state []))
      = js "MetaMask non détecté."
      \/ status (final_state (run world_switch_refused (ensureNetwork mainnet)
                                initial_state []))
         = js "Changement de réseau refusé dans MetaMask."
      \/ status (final_state (run world_switch_refused (ensureNetwork mainnet)
                                initial_state []))
         = js "Ajout de réseau refusé dans MetaMask.").
Proof.
  destruct (ensureNetwork_status_tells_result world_granting initial_state []
              mainnet) as (Htrue & _).
  destruct (ensureNetwork_status_tells_result world_switch_refused initial_state []
              mainnet) as (_ & Hfalse).
  split; [apply Htrue | apply Hfalse]; reflexivity.
Defined.

Lemma connectWallet_without_provider_witness :
  requests (trace (run world_without_wallet (connectWallet session_after_deploy)
                     session_after_deploy []))
  = [].
Proof.
  destruct (connectWallet_without_provider world_without_wallet
              session_after_deploy []) as (H & _); [reflexivity |].
  exact H.
Defined.

Lemma connectWallet_accounts_rejected_witness :
  account (final_state (run (world_refusing is_requestAccounts)
                          (connectWallet session_mainnet) session_mainnet []))
  = account session_mainnet.
Proof.
  destruct (connectWallet_accounts_rejected (world_refusing is_requestAccounts)
              session_mainnet []
              (provider_error 4001 "User rejected the request."))
    as (H & _); [reflexivity | reflexivity |].
  exact H.
Defined.

Lemma connectWallet_empty_accounts_witness :
  status (final_state (run world_no_account (connectWallet session_mainnet)
                         session_mainnet []))
  = js "Wallet connecté."
  /\ walletButton (final_state (run world_no_account (connectWallet session_mainnet)
                                  session_mainnet []))
     = ConnectButton.
Proof.
  destruct (connectWallet_empty_accounts world_no_account session_mainnet [] [])
    as (Hstatus & _ & Hbutton);
    [reflexivity | reflexivity | left; reflexivity |].
  split; [exact Hstatus | exact Hbutton].
Defined.

Lemma connectWallet_shows_account_witness :
  walletButton (final_state (run world_granting (connectWallet session_mainnet)
                               session_mainnet []))
  = DisconnectButton.
Proof.
  destruct (connectWallet_shows_account world_granting session_mainnet []
              (js "0x52908400098527886E0F7030069857D2E4169EE7") [])
    as (_ & _ & H); [reflexivity | reflexivity | discriminate |].
  exact H.
Defined.

Lemma connectWallet_frame_witness :
  In eth_requestAccounts
     (requests (trace (run world_granting (connectWallet session_mainnet)
                         session_mainnet []))).
Proof.
  destruct (connectWallet_frame world_granting session_mainnet [])
    as (_ & _ & _ & _ & _ & _ & _ & H).
  apply H. vm_compute. discriminate.
Defined.

Lemma deployContract_confirmed_with_address_witness :
  contractAddress (final_state (run world_granting (deployContract session_mainnet)
                                  session_mainnet []))
  = js "0x8617E340B3D01FA5F11F306F4090FD50E238070D".
Proof.
  destruct (deployContract_confirmed_with_address world_granting session_mainnet []
              (granted (sendTransaction
                          {| TxRequest.data := js "0x60006000f3";
                             TxRequest.gasLimit := 70000 |}))
              [wallet_switchEthereumChain (js "0xaa36a7"); getSigner;
               sendTransaction {| TxRequest.data := js "0x60006000f3";
                                  TxRequest.gasLimit := 70000 |}]
              [] (js "0x8617E340B3D01FA5F11F306F4090FD50E238070D"))
    as (_ & H & _);
    [vm_compute; reflexivity | vm_compute; reflexivity | discriminate |].
  exact H.
Defined.

Lemma deployContract_confirmed_without_address_witness :
  addressLink (final_state (run world_no_contract (deployContract session_mainnet)
                              session_mainnet []))
  = None.
Proof.
  destruct (deployContract_confirmed_without_address world_no_contract
              session_mainnet []
              (granted (sendTransaction
                          {| TxRequest.data := js "0x60006000f3";
                             TxRequest.gasLimit := 70000 |}))
              [wallet_switchEthereumChain (js "0xaa36a7"); getSigner;
               sendTransaction {| TxRequest.data := js "0x60006000f3";
                                  TxRequest.gasLimit := 70000 |}]
              [] (Some {| receipt_address := None |}))
    as (_ & _ & H & _);
    [vm_compute; reflexivity | vm_compute; reflexivity
     | right; left; reflexivity |].
  exact H.
Defined.

Lemma deployContract_signature_refused_witness :
  txLink (final_state (run (world_refusing is_sendTransaction)
                         (deployContract session_mainnet) session_mainnet []))
  = None.
Proof.
  destruct (deployContract_signature_refused (world_refusing is_sendTransaction)
              session_mainnet []
              {| TxRequest.data := js "0x60006000f3"; TxRequest.gasLimit := 70000 |}
              [wallet_switchEthereumChain (js "0xaa36a7"); getSigner] []
              (provider_error 4001 "User rejected the request."))
    as (_ & _ & _ & H & _);
    [vm_compute; reflexivity | vm_compute; reflexivity |].
  exact H.
Defined.

Lemma deployContract_signer_refused_witness :
  txHash (final_state (run (world_refusing is_getSigner)
                         (deployContract session_mainnet) session_mainnet []))
  = [].
Proof.
  destruct (deployContract_signer_refused (world_refusing is_getSigner)
              session_mainnet []
              [wallet_switchEthereumChain (js "0xaa36a7")] []
              (provider_error 4001 "User rejected the request."))
    as (_ & H & _);
    [vm_compute; reflexivity | vm_compute; reflexivity |].
  exact H.
Defined.

Lemma deployContract_single_transaction_witness :
  exists txr pre,
    [wallet_switchEthereumChain (js "0xaa36a7"); getSigner;
     sendTransaction {| TxRequest.data := js "0x60006000f3";
                        TxRequest.gasLimit := 70000 |}]
    = pre ++ [sendTransaction txr]
    /\ respond world_granting ([] ++ pre) (sendTransaction txr)
       = Resolved (granted (sendTransaction
                              {| TxRequest.data := js "0x60006000f3";
                                 TxRequest.gasLimit := 70000 |})).
Proof.
  destruct (deployContract_single_transaction world_granting session_mainnet [])
    as (_ & _ & H).
  destruct (H (granted (sendTransaction
                          {| TxRequest.data := js "0x60006000f3";
                             TxRequest.gasLimit := 70000 |}))
              [wallet_switchEthereumChain (js "0xaa36a7"); getSigner;
               sendTransaction {| TxRequest.data := js "0x60006000f3";
                                  TxRequest.gasLimit := 70000 |}]
              []) as [_ Hex]; [vm_compute; reflexivity |].
  exact Hex.
Defined.

Lemma deployContract_address_needs_confirmation_witness :
  exists tx,
    In (wait tx)
       (requests (trace (run world_granting (deployContract session_mainnet)
                           session_mainnet [])))
    /\ txHash (final_state (run world_granting (deployContract session_mainnet)
                              session_mainnet []))
       = hash tx
    /\ status (final_state (run world_granting (deployContract session_mainnet)
                              session_mainnet []))
       = js "Confirmé ✅ Contrat déployé à "
         ++ contractAddress (final_state (run world_granting
                                            (deployContract session_mainnet)
                                            session_mainnet [])).
Proof.
  apply (deployContract_address_needs_confirmation world_granting session_mainnet []).
  vm_compute. discriminate.
Defined.


Lemma fillTestBytecode_then_deploy_witness :
  hd_error
    (requests
       (trace (run world_granting
                 (deployContract
                    (final_state (run world_granting fillTestBytecode initial_state [])))
                 (final_state (run world_granting fillTestBytecode initial_state []))
                 [])))
  = Some (wallet_switchEthereumChain (chainIdHex (CHAINS sepolia)))
  /\ {| TxRequest.data := dataHex TEST_BYTECODE; TxRequest.gasLimit := 70000 |}
     = {| TxRequest.data := js "0x60006000f3"; TxRequest.gasLimit := 70000 |}.
Proof.
  destruct (fillTestBytecode_then_deploy world_granting world_granting
              initial_state [] []) as (_ & _ & Hfirst & Hdata).
  split.
  - apply Hfirst. reflexivity.
  - apply Hdata. right. right. left. reflexivity.
Defined.

Lemma shorten_long_witness :
  exists first6 middle last4,
    js "0x52908400098527886E0F7030069857D2E4169EE7" = first6 ++ middle ++ last4
    /\ List.length first6 = 6
    /\ List.length last4 = 4
    /\ shorten (js "0x52908400098527886E0F7030069857D2E4169EE7")
       = first6 ++ js "…" ++ last4
    /\ List.length (shorten (js "0x52908400098527886E0F7030069857D2E4169EE7")) = 11.
Proof.
  apply (shorten_long (js "0x52908400098527886E0F7030069857D2E4169EE7")).
  vm_compute. repeat constructor.
Defined.

Lemma shorten_length_witness :
  shorten (js "abc") = js "abc" ++ js "…" ++ js "abc".
Proof.
  destruct (shorten_length (js "abc")) as (_ & H).
  destruct H as (_ & _ & Hshort); [discriminate |].
  apply Hshort. vm_compute. repeat constructor.
Defined.

Lemma handler_other_chain_witness :
  networkLabel (fun _ => js "137")
    (final_state (run world_granting (handler (js "")) session_mainnet []))
  = js "inconnu"
  /\ networkLabel (fun _ => js "137")
       (final_state (run world_granting (handler (js "0x89")) session_mainnet []))
     = js "ChainId " ++ js "137".
Proof.
  destruct (handler_other_chain (fun _ => js "137") world_granting session_mainnet []
              (js "")) as (Hnone & _).
  destruct (handler_other_chain (fun _ => js "137") world_granting session_mainnet []
              (js "0x89")) as (_ & Hother).
  split.
  - apply Hnone. left. reflexivity.
  - apply (Hother 137%Z); [reflexivity | discriminate ..].
Defined.

Lemma networkLabel_matches_explorer_witness :
  networkLabel (fun _ => js "137") session_after_deploy = js "Sepolia"
  /\ explorerBase session_after_deploy = blockExplorer (CHAINS sepolia).
Proof.
  destruct (networkLabel_matches_explorer (fun _ => js "137") session_after_deploy)
    as (Hiff & _ & Hexplorer & _).
  assert (Hlabel : networkLabel (fun _ => js "137") session_after_deploy
                   = js "Sepolia") by (apply Hiff; reflexivity).
  split; [exact Hlabel | apply Hexplorer; exact Hlabel].
Defined.

Lemma selectTarget_switches_nothing_witness :
  explorerBase (final_state (run world_granting (selectTarget mainnet)
                               initial_state []))
  = blockExplorer (CHAINS mainnet)
  /\ hd_error
       (requests
          (trace (run world_granting
                    (connectWallet
                       (final_state (run world_granting (selectTarget mainnet)
                                       initial_state [])))
                    (final_state (run world_granting (selectTarget mainnet)
                                    initial_state []))
                    [])))
     = Some (wallet_switchEthereumChain (chainIdHex (CHAINS mainnet))).
Proof.
  destruct (selectTarget_switches_nothing world_granting world_granting
              initial_state [] [] mainnet) as (_ & _ & Hother & Hconnect).
  split.
  - apply Hother; discriminate.
  - apply Hconnect. reflexivity.
Defined.

Lemma observeChain_is_silent_witness :
  final_state (run world_without_wallet (observeChain (Resolved (js "0x1")))
                 session_after_deploy [])
  = session_after_deploy
  /\ currentChainId (final_state (run world_granting
                                    (observeChain (Resolved (js "0x1")))
                                    session_after_deploy []))
     = parseInt16 (js "0x1").
Proof.
  destruct (observeChain_is_silent world_without_wallet session_after_deploy []
              (Resolved (js "0x1"))) as (_ & _ & _ & _ & Hsame & _).
  destruct (observeChain_is_silent world_granting session_after_deploy []
              (Resolved (js "0x1"))) as (_ & _ & _ & _ & _ & Hparsed).
  split.
  - apply Hsame. left. reflexivity.
  - apply Hparsed; reflexivity.
Defined.

Lemma deployContract_untrimmed_payload_witness :
  payload_rejected (bytecode session_spaced_payload) = false
  /\ TxRequest.data
       {| TxRequest.data := dataHex (js " 0x6000"); TxRequest.gasLimit := 70000 |}
     = js "0x" ++ 32%N :: js "0x6000".
Proof.
  destruct (deployContract_untrimmed_payload world_granting session_spaced_payload [])
    as (Hiff & Hdata).
  split.
  - apply Hiff. vm_compute. repeat constructor.
  - apply (Hdata 32%N (js "0x6000")
             {| TxRequest.data := dataHex (js " 0x6000"); TxRequest.gasLimit := 70000 |}).
    + reflexivity.
    + reflexivity.
    + right. right. left. reflexivity.
Defined.
